(** * FungiGPT model package: dataset validation, preprocessing, training
      orchestration and TensorFlow Lite export

    A shallow embedding of [src/model/config.py], [src/model/preprocess.py],
    [src/model/train.py] and [src/model/export_tflite.py], with the training
    state, the disease records and the login of [src/admin/main.py] and
    [src/admin/auth.py] and the file sorting of
    [scripts/prepare_training_data.py].

    Conventions.
    - A Python [str] is a [string] (its UTF-8 bytes); [f"{n}"] for an [int]
      is [str_of_nat].
    - A directory tree is a [node]; a Python [dict] whose iteration order is
      observable is an association list in insertion order.
    - Floating-point quantities (learning rates, pixel values) are exact
      rationals.
    - Of standard output only the figures [verify_tflite_model] prints are
      kept, as a [report]; the calls a run makes are recorded as events.
    - PIL, Keras and TensorFlow operations enter as section variables; the
      calls of a training or export run that can raise enter as a [library]
      of outcomes, and a run stops at the first call that raises. *)

From Stdlib Require Import List String Ascii Bool Arith Lia PeanoNat.
From Stdlib Require Import NArith QArith Qabs.
From Stdlib Require Import DecimalString Permutation Sorted.
Import ListNotations.

Set Warnings "-register-all".

Local Open Scope nat_scope.
Local Open Scope list_scope.
Local Open Scope string_scope.

(** ** Python string helpers *)

Module Py.

(** [str(n)] for a non-negative [int]. *)
Definition str_of_nat (n : nat) : string :=
  NilEmpty.string_of_uint (Nat.to_uint n).

(** The one-character string [\n]. *)
Definition newline : string := String (ascii_of_nat 10) "".

(** [sep.join(parts)]. *)
Definition join (sep : string) (parts : list string) : string :=
  String.concat sep parts.

(** [s.startswith(p)]. *)
Definition startswith (p s : string) : bool := String.prefix p s.

(** [c.lower()] on one byte: only [A]..[Z] move.  None of the letters of
    the accepted extensions is the lower-case image of a non-ASCII code
    point, so the byte-wise map decides membership in [valid_extensions]
    exactly as [str.lower] does. *)
Definition lower_ascii (c : ascii) : ascii :=
  let n := nat_of_ascii c in
  if ((65 <=? n) && (n <=? 90))%nat then ascii_of_nat (n + 32) else c.

Fixpoint lower (s : string) : string :=
  match s with
  | EmptyString => EmptyString
  | String c r => String (lower_ascii c) (lower r)
  end.

(** [s.rfind('.')], [None] standing for [-1]. *)
Fixpoint rfind_dot (s : string) : option nat :=
  match s with
  | EmptyString => None
  | String c r =>
      match rfind_dot r with
      | Some i => Some (S i)
      | None => if Ascii.eqb c "."%char then Some 0 else None
      end
  end.

(** [s[i:]]. *)
Fixpoint drop (i : nat) (s : string) : string :=
  match i, s with
  | 0, _ => s
  | S _, EmptyString => EmptyString
  | S j, String _ r => drop j r
  end.

(** [PurePath.suffix] of a one-component path [name]:
    [i = name.rfind('.')]; [name[i:]] when [0 < i < len(name) - 1],
    the empty string otherwise. *)
Definition suffix (name : string) : string :=
  match rfind_dot name with
  | Some i =>
      if ((0 <? i) && (i + 1 <? String.length name))%nat then drop i name else ""
  | None => ""
  end.

(** [os.path.join(a, b)] for a relative component [b]. *)
Definition path_join (a b : string) : string :=
  if String.eqb a "" then b
  else if String.eqb (drop (String.length a - 1) a) "/" then a ++ b
  else a ++ "/" ++ b.

(** [p[: p.rfind('/') + 1]]: the path up to and including its last
    slash. *)
Fixpoint up_to_last_slash (p : string) : string :=
  match p with
  | EmptyString => EmptyString
  | String c r =>
      match up_to_last_slash r with
      | EmptyString => if Ascii.eqb c "/" then String c EmptyString else EmptyString
      | head => String c head
      end
  end.

(** [s.rstrip('/')]. *)
Fixpoint rstrip_slash (s : string) : string :=
  match s with
  | EmptyString => EmptyString
  | String c r =>
      match rstrip_slash r with
      | EmptyString => if Ascii.eqb c "/" then EmptyString else String c EmptyString
      | r' => String c r'
      end
  end.

(** [os.path.dirname(p)]: the head up to the last slash, without its
    trailing slashes unless it consists of slashes only. *)
Definition dirname (p : string) : string :=
  let head := up_to_last_slash p in
  match rstrip_slash head with
  | EmptyString => head
  | stripped => stripped
  end.

(** Membership of a string in a list, as [x in xs]. *)
Definition str_in (x : string) (xs : list string) : bool :=
  existsb (String.eqb x) xs.

(** A [dict] with [str] keys in insertion order. *)
Section Dict.
Context {V : Type}.

Definition dict := list (string * V).

(** [d[k] = v]: an existing key keeps its position. *)
Fixpoint dict_set (d : dict) (k : string) (v : V) : dict :=
  match d with
  | [] => [(k, v)]
  | (k', v') :: r =>
      if String.eqb k' k then (k', v) :: r else (k', v') :: dict_set r k v
  end.

Definition keys (d : dict) : list string := map fst d.
Definition values (d : dict) : list V := map snd d.
End Dict.
Arguments dict : clear implicits.

(** [sum(xs)] over [int]s. *)
Definition sum (xs : list nat) : nat := fold_right Nat.add 0 xs.

End Py.

(** ** [config.py] *)

Module Config.

Definition IMG_SIZE : nat * nat := (224, 224).
Definition BATCH_SIZE : nat := 16.
Definition CHANNELS : nat := 3.

Definition EPOCHS : nat := 50.
Definition LEARNING_RATE : Q := 1 # 1000.
Definition FINE_TUNE_EPOCHS : nat := 20.
Definition FINE_TUNE_LR : Q := 1 # 10000.

Definition VALIDATION_SPLIT : Q := 2 # 10.
Definition TEST_SPLIT : Q := 1 # 10.

Definition CLASS_NAMES : list string :=
  [ "candidiasis"; "tinea_corporis"; "tinea_pedis"; "tinea_versicolor" ].

Definition MODEL_SAVE_PATH := "models/fungal_classifier.keras".
Definition TFLITE_MODEL_PATH := "models/fungal_classifier.tflite".
Definition TFLITE_QUANT_PATH := "models/fungal_classifier_quant.tflite".

End Config.

(** ** The file system seen by the package *)

(** A tree of regular files and directories.  A file carries its bytes; a
    directory lists its entries under their names, in the order the
    operating system returns them. *)
Inductive node : Type :=
| File (content : string)
| Dir (entries : list (string * node)).

Definition is_dir (n : node) : bool :=
  match n with Dir _ => true | File _ => false end.

Definition is_file (n : node) : bool :=
  match n with File _ => true | Dir _ => false end.

(** Induction on a tree, with the hypothesis available for every child of
    a directory. *)
Section NodeInduction.
Variable P : node -> Prop.
Hypothesis P_file : forall content, P (File content).
Hypothesis P_dir :
  forall entries, Forall (fun e => P (snd e)) entries -> P (Dir entries).

Fixpoint node_induction (n : node) : P n :=
  match n with
  | File content => P_file content
  | Dir entries =>
      P_dir entries
        ((fix children (es : list (string * node))
            : Forall (fun e => P (snd e)) es :=
            match es with
            | [] => Forall_nil _
            | (name, child) :: rest =>
                Forall_cons (name, child) (node_induction child) (children rest)
            end) entries)
  end.
End NodeInduction.

(** Exceptions raised by the modelled functions. *)
Inductive exn : Type :=
| ValueError (arg : option string)
| NotADirectoryError (path : string)
| FileNotFoundError (path : string)
| RuntimeError (msg : string).

Inductive result (A : Type) : Type :=
| Return (a : A)
| Raise (e : exn).
Arguments Return {A} a.
Arguments Raise {A} e.

(** [os.makedirs(path, exist_ok=True)]: the empty path is refused with
    [FileNotFoundError]; on any other path the outcome is the operating
    system's, [None] when the call returns. *)
Definition makedirs (os_makedirs : string -> option exn) (path : string) : option exn :=
  if String.eqb path "" then Some (FileNotFoundError "") else os_makedirs path.

(** ** [train.py]: [validate_dataset] *)

Module Validate.
Import Py.

Definition valid_extensions : list string :=
  [ ".jpg"; ".jpeg"; ".png"; ".webp"; ".bmp"; ".gif" ].

Definition MIN_CLASSES : nat := 2.
Definition MIN_IMAGES_PER_CLASS : nat := 3.
Definition MIN_TOTAL_IMAGES : nat := 20.

(** The third component of the returned tuple: [{}] on the early exit,
    the three-key dictionary otherwise. *)
Inductive stats : Type :=
| NoStats
| Stats (num_classes total_images : nat) (class_counts : dict nat).

(** [f.is_file() and f.suffix.lower() in valid_extensions]. *)
Definition is_image_entry (e : string * node) : bool :=
  is_file (snd e) && str_in (lower (suffix (fst e))) valid_extensions.

(** [sum(1 for f in class_dir.iterdir() if ...)]. *)
Definition count_images (files : list (string * node)) : nat :=
  List.length (filter is_image_entry files).

(** The loop over [data_path.iterdir()] filling [class_counts]. *)
Fixpoint scan_classes (entries : list (string * node)) (class_counts : dict nat)
  : dict nat :=
  match entries with
  | [] => class_counts
  | (name, Dir files) :: rest =>
      if negb (startswith "." name) then
        let count := count_images files in
        if (0 <? count)%nat
        then scan_classes rest (dict_set class_counts name count)
        else scan_classes rest class_counts
      else scan_classes rest class_counts
  | (_, File _) :: rest => scan_classes rest class_counts
  end.

(** The dict comprehension [{k: v for k, v in ... if v < MIN_IMAGES_PER_CLASS}]. *)
Definition insufficient_classes (class_counts : dict nat) : dict nat :=
  filter (fun kv => (snd kv <? MIN_IMAGES_PER_CLASS)%nat) class_counts.

Definition class_errors (data_dir : string) (class_counts : dict nat) : list string :=
  let num_classes := List.length class_counts in
  if (num_classes =? 0)%nat then
    [ "❌ No training images found in " ++ data_dir;
      "   Please upload images organized in class folders:";
      "   data/training_images/";
      "   ├── candidiasis/";
      "   ├── tinea_corporis/";
      "   ├── tinea_pedis/";
      "   └── tinea_versicolor/" ]
  else if (num_classes <? MIN_CLASSES)%nat then
    [ "❌ Insufficient disease classes: " ++ str_of_nat num_classes
        ++ " (minimum: " ++ str_of_nat MIN_CLASSES ++ ")";
      "   Current classes: " ++ join ", " (keys class_counts);
      "   Please add images to at least 2 different disease folders" ]
  else [].

Definition per_class_errors (class_counts : dict nat) : list string :=
  let num_classes := List.length class_counts in
  let insufficient := insufficient_classes class_counts in
  if negb (Nat.eqb (List.length insufficient) 0) && (MIN_CLASSES <=? num_classes)%nat then
    ("❌ Some classes have too few images (minimum: "
       ++ str_of_nat MIN_IMAGES_PER_CLASS ++ " per class):")
    :: map (fun kv =>
              "   - " ++ fst kv ++ ": " ++ str_of_nat (snd kv)
                ++ " images (need " ++ str_of_nat (MIN_IMAGES_PER_CLASS - snd kv)
                ++ " more)")
           insufficient
  else [].

Definition total_errors (class_counts : dict nat) : list string :=
  let num_classes := List.length class_counts in
  let total_images := sum (values class_counts) in
  if (total_images <? MIN_TOTAL_IMAGES)%nat && (MIN_CLASSES <=? num_classes)%nat then
    [ "❌ Insufficient total images: " ++ str_of_nat total_images
        ++ " (minimum: " ++ str_of_nat MIN_TOTAL_IMAGES ++ ")";
      "   Please add " ++ str_of_nat (MIN_TOTAL_IMAGES - total_images)
        ++ " more images" ]
  else [].

(** The list [errors] as the three consecutive blocks of the function
    leave it. *)
Definition collect_errors (data_dir : string) (class_counts : dict nat) : list string :=
  (class_errors data_dir class_counts
     ++ per_class_errors class_counts
     ++ total_errors class_counts)%list.

(** [validate_dataset(data_dir)], [root] being what the file system holds
    at [data_dir] ([None]: nothing there). *)
Definition validate_dataset (data_dir : string) (root : option node)
  : result (bool * option string * stats) :=
  match root with
  | None =>
      Return (false, Some ("❌ Dataset directory not found: " ++ data_dir), NoStats)
  | Some (File _) => Raise (NotADirectoryError data_dir)
  | Some (Dir entries) =>
      let class_counts := scan_classes entries [] in
      let total_images := sum (values class_counts) in
      let num_classes := List.length class_counts in
      let errors := collect_errors data_dir class_counts in
      let stats := Stats num_classes total_images class_counts in
      match errors with
      | [] => Return (true, None, stats)
      | _ :: _ => Return (false, Some (join newline errors), stats)
      end
  end.

(** *** The dataset's contents, read off the tree *)

(** The class directories that hold at least one image, with their image
    counts, in listing order. *)
Definition populated_classes (entries : list (string * node)) : list (string * nat) :=
  flat_map (fun e =>
              match snd e with
              | Dir files =>
                  if negb (startswith "." (fst e)) && (0 <? count_images files)%nat
                  then [(fst e, count_images files)] else []
              | File _ => []
              end) entries.

(** Names in one directory are pairwise distinct. *)
Definition distinct_names (entries : list (string * node)) : Prop :=
  NoDup (map fst entries).

End Validate.

(** ** [preprocess.py] *)

Module Preprocess.
Import Py.

(** *** Cleaning: [is_valid_image], [remove_corrupted_images] *)

Section Cleaning.

(** PIL's verdict on the bytes of a file: [Image.open(filepath)] followed
    by [img.verify()] completes without an exception. *)
Variable image_verifies : string -> bool.

(** [is_valid_image(filepath)], on the bytes found at [filepath]. *)
Definition is_valid_image (content : string) : bool :=
  image_verifies content.

(** The paths [os.path.join(subdir, file)] of the [files] of one
    directory that fail [is_valid_image], in listing order. *)
Definition corrupted_here (subdir : string) (entries : list (string * node))
  : list string :=
  flat_map (fun e =>
              match snd e with
              | File content =>
                  if negb (is_valid_image content)
                  then [path_join subdir (fst e)] else []
              | Dir _ => []
              end) entries.

(** One [os.walk] traversal, top-down: the [files] of [subdir] are
    handled first, in listing order, then each sub-directory in turn.
    Returns the paths appended to [removed_files] and the tree that is
    left once [os.remove] has run on each of them. *)
Fixpoint walk_remove (subdir : string) (n : node) {struct n}
  : list string * node :=
  match n with
  | File content => ([], File content)
  | Dir entries =>
      let below :=
        (fix go (es : list (string * node)) : list string * list (string * node) :=
           match es with
           | [] => ([], [])
           | (name, child) :: rest =>
               match child with
               | File content =>
                   if negb (is_valid_image content)
                   then go rest
                   else (fst (go rest), (name, child) :: snd (go rest))
               | Dir _ =>
                   ((fst (walk_remove (path_join subdir name) child)
                       ++ fst (go rest))%list,
                    (name, snd (walk_remove (path_join subdir name) child))
                      :: snd (go rest))
               end
           end) entries in
      ((corrupted_here subdir entries ++ fst below)%list, Dir (snd below))
  end.

(** [remove_corrupted_images(root_path)]; [os.walk] yields nothing when
    [root_path] is missing or is not a directory. *)
Definition remove_corrupted_images (root_path : string) (root : option node)
  : list string * option node :=
  match root with
  | Some (Dir entries) =>
      (fst (walk_remove root_path (Dir entries)),
       Some (snd (walk_remove root_path (Dir entries))))
  | _ => ([], root)
  end.

(** The regular files of one directory with their paths and bytes. *)
Definition files_here (subdir : string) (entries : list (string * node))
  : list (string * string) :=
  flat_map (fun e =>
              match snd e with
              | File content => [(path_join subdir (fst e), content)]
              | Dir _ => []
              end) entries.

(** Every regular file below a node with its path and bytes, in the
    order [os.walk] visits them. *)
Fixpoint files_under (subdir : string) (n : node) {struct n}
  : list (string * string) :=
  match n with
  | File _ => []
  | Dir entries =>
      let below :=
        (fix go (es : list (string * node)) : list (string * string) :=
           match es with
           | [] => []
           | (name, child) :: rest =>
               match child with
               | File _ => go rest
               | Dir _ =>
                   (files_under (path_join subdir name) child ++ go rest)%list
               end
           end) entries in
      (files_here subdir entries ++ below)%list
  end.

(** The inner loop of [walk_remove] over the entries of one directory,
    under a name of its own. *)
Definition walk_below (subdir : string) (es : list (string * node))
  : list string * list (string * node) :=
  (fix go (es : list (string * node)) : list string * list (string * node) :=
     match es with
     | [] => ([], [])
     | (name, child) :: rest =>
         match child with
         | File content =>
             if negb (is_valid_image content)
             then go rest
             else (fst (go rest), (name, child) :: snd (go rest))
         | Dir _ =>
             ((fst (walk_remove (path_join subdir name) child)
                 ++ fst (go rest))%list,
              (name, snd (walk_remove (path_join subdir name) child))
                :: snd (go rest))
         end
     end) es.

(** The inner loop of [files_under], under a name of its own. *)
Definition files_below (subdir : string) (es : list (string * node))
  : list (string * string) :=
  (fix go (es : list (string * node)) : list (string * string) :=
     match es with
     | [] => []
     | (name, child) :: rest =>
         match child with
         | File _ => go rest
         | Dir _ => (files_under (path_join subdir name) child ++ go rest)%list
         end
     end) es.

Definition files_at (root_path : string) (root : option node)
  : list (string * string) :=
  match root with
  | Some n => files_under root_path n
  | None => []
  end.

End Cleaning.

(** *** Tensors *)

(** A dense array: its shape and its elements in row-major order. *)
Record tensor : Type := { shape : list nat; data : list Q }.

Definition in_range (lo hi : Q) (t : tensor) : Prop :=
  Forall (fun x => lo <= x /\ x <= hi)%Q (data t).

(** [np.expand_dims(x, axis=0)] and [tf.expand_dims(x, axis=0)]. *)
Definition expand_dims0 (t : tensor) : tensor :=
  {| shape := 1 :: shape t; data := data t |}.

(** [mobilenet_v2.preprocess_input]: [x /= 127.5; x -= 1.0]. *)
Definition preprocess_input (t : tensor) : tensor :=
  {| shape := shape t;
     data := map (fun x => x / (255 # 2) - 1)%Q (data t) |}.

Section Inference.

(** The imaging back ends.  [load_img] and [img_to_array] are the Keras/PIL
    route, [decode_image] and [resize] the TensorFlow route. *)
Variable pil_image : Type.
Variable load_img : string -> nat * nat -> result pil_image.
Variable img_to_array : pil_image -> tensor.
Variable decode_image : string -> nat -> result tensor.
Variable resize : tensor -> nat * nat -> result tensor.

(** [preprocess_image(image_path, target_size)]. *)
Definition preprocess_image (image_path : string) (target_size : nat * nat)
  : result tensor :=
  match load_img image_path target_size with
  | Raise e => Raise e
  | Return img =>
      let img_array := img_to_array img in
      let img_array := preprocess_input img_array in
      let img_array := expand_dims0 img_array in
      Return img_array
  end.

(** [preprocess_image_bytes(image_bytes, target_size)]. *)
Definition preprocess_image_bytes (image_bytes : string) (target_size : nat * nat)
  : result tensor :=
  match decode_image image_bytes 3 with
  | Raise e => Raise e
  | Return img =>
      match resize img target_size with
      | Raise e => Raise e
      | Return img =>
          let img := preprocess_input img in
          let img := expand_dims0 img in
          Return img
      end
  end.

(** What the libraries document about these operations.
    - [load_img] with [color_mode='rgb'] and a [target_size] gives an
      8-bit RGB image of that size; [img_to_array] turns it into
      a height x width x 3 array of its channel values.
    - [decode_image] with [channels=3] gives an 8-bit array that is
      height x width x 3 for BMP, JPEG and PNG data and
      frames x height x width x 3 for GIF data.
    - [resize] to a positive height and width succeeds on such an array,
      keeps the rank, replaces height and width by the target and
      interpolates within the range of its input; a target with a zero
      height or width is refused. *)
Record backend_contract : Prop := {
  load_img_shape : forall p h w img,
    load_img p (h, w) = Return img ->
    shape (img_to_array img) = [h; w; 3];
  load_img_range : forall p sz img,
    load_img p sz = Return img ->
    in_range 0 255 (img_to_array img);
  decode_image_shape : forall b t,
    decode_image b 3 = Return t ->
    (exists h w, shape t = [h; w; 3]) \/
    (exists n h w, shape t = [n; h; w; 3]);
  decode_image_range : forall b t,
    decode_image b 3 = Return t -> in_range 0 255 t;
  resize_shape3 : forall t h w c th tw,
    shape t = [h; w; c] -> 0 < th -> 0 < tw ->
    exists t', resize t (th, tw) = Return t' /\ shape t' = [th; tw; c];
  resize_shape4 : forall t n h w c th tw,
    shape t = [n; h; w; c] -> 0 < th -> 0 < tw ->
    exists t', resize t (th, tw) = Return t' /\ shape t' = [n; th; tw; c];
  resize_range : forall t sz t',
    resize t sz = Return t' -> in_range 0 255 t -> in_range 0 255 t';
  resize_zero : forall t th tw,
    th = 0 \/ tw = 0 -> exists e, resize t (th, tw) = Raise e
}.

(** Two tensors agree within a tolerance: same shape, and entries that
    differ by at most [tol] position by position. *)
Definition close (tol : Q) (t1 t2 : tensor) : Prop :=
  shape t1 = shape t2 /\
  Forall2 (fun x y => Qabs (x - y) <= tol)%Q (data t1) (data t2).

End Inference.

End Preprocess.

(** ** [train.py]: model construction and the training run *)

Module Train.
Import Py.

(** The Keras model as far as the run touches it: the [trainable] flag of
    every layer of [base_model] in layer order, the width of the soft-max
    layer, and the learning rate of the optimizer it was last compiled
    with. *)
Record keras_model : Type := {
  backbone : list bool;
  num_outputs : nat;
  optimizer_lr : option Q
}.

(** [sorted(names)] on [str]. *)
Fixpoint insert_sorted (x : string) (l : list string) : list string :=
  match l with
  | [] => [x]
  | y :: r => if String.leb x y then x :: y :: r else y :: insert_sorted x r
  end.

Definition sorted (l : list string) : list string :=
  fold_right insert_sorted [] l.

(** The names of the sub-directories of a directory, in listing order. *)
Definition subdirs (entries : list (string * node)) : list string :=
  map fst (filter (fun e => is_dir (snd e)) entries).

(** [train_gen.class_indices]: [flow_from_directory] numbers the
    sub-directories of [data_dir] by their position in sorted order. *)
Definition class_indices (root : option node) : list string :=
  match root with
  | Some (Dir entries) => sorted (subdirs entries)
  | _ => []
  end.

(** [layer.trainable = flag] for every layer, as the assignment
    [base_model.trainable = flag] does. *)
Definition set_trainable (flag : bool) (layers : list bool) : list bool :=
  map (fun _ => flag) layers.

(** [for layer in layers[:n]: layer.trainable = False]. *)
Definition freeze_first (n : nat) (layers : list bool) : list bool :=
  (map (fun _ => false) (firstn n layers) ++ skipn n layers)%list.

(** [model.compile(optimizer=Adam(learning_rate=lr), ...)]. *)
Definition compile (lr : Q) (m : keras_model) : keras_model :=
  {| backbone := backbone m; num_outputs := num_outputs m;
     optimizer_lr := Some lr |}.

(** The opening of phase 2: unfreeze, freeze the first 100 layers again,
    compile at the fine-tuning rate. *)
Definition fine_tune_setup (m : keras_model) : keras_model :=
  let unfrozen := set_trainable true (backbone m) in
  let layers := freeze_first 100 unfrozen in
  compile Config.FINE_TUNE_LR
    {| backbone := layers; num_outputs := num_outputs m;
       optimizer_lr := optimizer_lr m |}.

(** The calls a run makes, in order.  A [Fit] records the model as it
    stands when fitting starts.  A call that raises is the last of the
    run. *)
Inductive event : Type :=
| RemoveCorruptedImages (data_dir : string) (removed : list string)
| CreateDataGenerators (data_dir : string) (batch_size : nat) (validation_split : Q)
| BuildModel (num_classes : nat)
| GetCallbacks (model_path : string)
| Fit (m : keras_model) (epochs : nat) (checkpoint : string)
| Evaluate (m : keras_model)
| PlotTrainingHistory (save_path : string)
| Save (m : keras_model) (model_path : string).

(** How the calls into the operating system, Keras and matplotlib end in
    one run: [None] when the call returns, the exception when it raises.
    [os_makedirs] is [os.makedirs(path, exist_ok=True)] on a non-empty path,
    [flow_from_directory] the construction of the two generators over the
    cleaned tree, [mobilenet_v2] the loading of the pretrained network,
    [combine_histories] the look-ups of [accuracy], [val_accuracy], [loss]
    and [val_loss] in the histories of the two fits, [savefig] the drawing
    and saving of the history plot. *)
Record library : Type := {
  os_makedirs : string -> option exn;
  flow_from_directory : string -> option node -> option exn;
  mobilenet_v2 : option exn;
  model_fit : option node -> keras_model -> nat -> option exn;
  combine_histories : option exn;
  model_evaluate : option node -> keras_model -> option exn;
  savefig : string -> option exn;
  model_save : keras_model -> string -> option exn
}.

(** One call in a run: recorded, and followed by the rest of the run
    unless it raises. *)
Definition call {A : Type} (e : event) (outcome : option exn)
    (rest : list event * result A) : list event * result A :=
  match outcome with
  | Some x => ([e], Raise x)
  | None => (e :: fst rest, snd rest)
  end.

(** A step that is no call of its own: the run goes on unless it
    raises. *)
Definition guard {A : Type} (outcome : option exn)
    (rest : list event * result A) : list event * result A :=
  match outcome with
  | Some x => ([], Raise x)
  | None => rest
  end.

Section Training.

Variable image_verifies : string -> bool.

(** The number of layers of the pretrained network without its top. *)
Variable backbone_depth : nat.

Variable lib : library.

(** What [get_callbacks(model_path)] does before it builds the list:
    [os.makedirs(os.path.dirname(model_path), exist_ok=True)]. *)
Definition get_callbacks (model_path : string) : option exn :=
  makedirs (os_makedirs lib) (dirname model_path).

(** [build_model(num_classes)]: every layer of [base_model] frozen. *)
Definition build_model (num_classes : nat) : keras_model :=
  {| backbone := set_trainable false (repeat true backbone_depth);
     num_outputs := num_classes;
     optimizer_lr := None |}.

(** [train(data_dir, output_dir)]: the calls made, the dataset tree left
    behind, and the outcome. *)
Definition train (data_dir output_dir : string) (root : option node)
  : list event * option node * result keras_model :=
  match Validate.validate_dataset data_dir root with
  | Raise e => ([], root, Raise e)
  | Return (is_valid, error_msg, _) =>
      if negb is_valid then
        ([], root,
         Raise (ValueError error_msg))
      else
        let '(removed, root1) :=
          Preprocess.remove_corrupted_images image_verifies data_dir root in
        let num_classes := List.length (class_indices root1) in
        let model := build_model num_classes in
        let model := compile Config.LEARNING_RATE model in
        let model_path := path_join output_dir "fungal_classifier.keras" in
        let model2 := fine_tune_setup model in
        let history_path := path_join output_dir "training_history.png" in
        let run :=
          call (RemoveCorruptedImages data_dir removed) None
          (call (CreateDataGenerators data_dir Config.BATCH_SIZE Config.VALIDATION_SPLIT)
                (flow_from_directory lib data_dir root1)
          (call (BuildModel num_classes) (mobilenet_v2 lib)
          (call (GetCallbacks model_path) (get_callbacks model_path)
          (call (Fit model Config.EPOCHS model_path)
                (model_fit lib root1 model Config.EPOCHS)
          (call (Fit model2 Config.FINE_TUNE_EPOCHS model_path)
                (model_fit lib root1 model2 Config.FINE_TUNE_EPOCHS)
          (guard (combine_histories lib)
          (call (Evaluate model2) (model_evaluate lib root1 model2)
          (call (PlotTrainingHistory history_path) (savefig lib history_path)
          (call (Save model2 model_path) (model_save lib model2 model_path)
                ([], Return model2)))))))))) in
        (fst run, root1, snd run)
  end.

(** The calls that precede the second fit return: the generators are
    built, the pretrained network loads, the output directory can be made
    and the first fit ends without an exception. *)
Definition phase1_completes (data_dir output_dir : string) (root : option node) : Prop :=
  let root1 := snd (Preprocess.remove_corrupted_images image_verifies data_dir root) in
  let model :=
    compile Config.LEARNING_RATE (build_model (List.length (class_indices root1))) in
  flow_from_directory lib data_dir root1 = None /\
  mobilenet_v2 lib = None /\
  get_callbacks (path_join output_dir "fungal_classifier.keras") = None /\
  model_fit lib root1 model Config.EPOCHS = None.

End Training.

End Train.

(** ** [export_tflite.py] *)

Module ExportTflite.
Import Py.
Import Preprocess.

(** The text [create_labels_file] sends to the file: one
    [f.write(f"{class_name}\n")] per entry of [CLASS_NAMES]. *)
Definition labels_text (class_names : list string) : string :=
  fold_left (fun written class_name => written ++ class_name ++ newline)
            class_names "".

(** The lines of a text file, as iterating over it yields them, without
    their terminators: a line ends at a line feed, at a carriage return,
    or at a carriage return followed by a line feed. *)
Fixpoint lines_from (current : string) (s : string) : list string :=
  match s with
  | EmptyString => if String.eqb current "" then [] else [current]
  | String c r =>
      if Ascii.eqb c (ascii_of_nat 10)
      then current :: lines_from "" r
      else if Ascii.eqb c (ascii_of_nat 13)
      then match r with
           | String c' r' =>
               if Ascii.eqb c' (ascii_of_nat 10)
               then current :: lines_from "" r'
               else current :: lines_from "" r
           | EmptyString => [current]
           end
      else lines_from (current ++ String c "") r
  end.

Definition lines (s : string) : list string := lines_from "" s.

(** Whether a string holds neither a line feed nor a carriage return. *)
Fixpoint free_of_line_breaks (s : string) : bool :=
  match s with
  | EmptyString => true
  | String c r =>
      negb (Ascii.eqb c (ascii_of_nat 10)) && negb (Ascii.eqb c (ascii_of_nat 13))
      && free_of_line_breaks r
  end.

(** A loaded interpreter: the shape of input 0 and what [set_tensor],
    [invoke] and [get_tensor] leave in output 0 for a given input, or the
    exception one of them raises. *)
Record interpreter : Type := {
  input_shape : list nat;
  invoke : tensor -> result tensor
}.

(** What [verify_tflite_model] prints about the random-input run. *)
Record report : Type := {
  test_output_shape : list nat;
  test_output : list Q;
  sum_of_probabilities : Q
}.

(** [output[0]]: the first row of a batch. *)
Definition row0 (t : tensor) : list Q :=
  firstn (fold_right Nat.mul 1 (tl (shape t))) (data t).

Definition qsum (xs : list Q) : Q := fold_right Qplus 0%Q xs.

(** What a run of the exporter does that can be seen from outside: the
    calls of [convert_to_tflite], the files written, the verification
    reports. *)
Inductive event : Type :=
| ConvertToTflite (keras_model_path output_path : string) (quantize : bool)
| WriteBytes (path : string) (content : string)
| WriteText (path text : string)
| VerifyTfliteModel (tflite_path : string) (r : report).

(** How the calls into Keras, the TFLite converter and the operating
    system end in one run.  [load_model] is [tf.keras.models.load_model]
    followed by [TFLiteConverter.from_keras_model]; [convert_float16] is
    [converter.convert()] under the float16 settings, giving the bytes of
    the artifact; [int8_refusal] is the exception [converter.convert()]
    raises under the other settings, where [tf.int8] is the only supported
    type and no representative dataset is set (the assignment is commented
    out in the source); [write_bytes] and [write_text] are opening a file
    for writing and writing to it. *)
Record library : Type := {
  load_model : string -> option exn;
  convert_float16 : string -> result string;
  int8_refusal : exn;
  os_makedirs : string -> option exn;
  write_bytes : string -> string -> option exn;
  write_text : string -> string -> option exn
}.

(** A run: the events so far and the value or the exception. *)
Definition run (A : Type) : Type := (list event * result A)%type.

Definition ret {A : Type} (a : A) : run A := ([], Return a).

Definition bind {A B : Type} (m : run A) (f : A -> run B) : run B :=
  match snd m with
  | Raise e => (fst m, Raise e)
  | Return a => ((fst m ++ fst (f a))%list, snd (f a))
  end.

Definition emit (e : event) : run unit := ([e], Return tt).

Definition lift {A : Type} (r : result A) : run A := ([], r).

Definition check (outcome : option exn) : run unit :=
  ([], match outcome with Some e => Raise e | None => Return tt end).

Notation "x <- m ;; k" := (bind m (fun x => k))
  (at level 61, m at next level, right associativity).
Notation "m ;;; k" := (bind m (fun _ => k))
  (at level 61, right associativity).

Section Exporting.

(** [tf.lite.Interpreter(model_path=...)] with [allocate_tensors()]. *)
Variable load_interpreter : string -> result interpreter.

(** A draw of [np.random.randn] at the given shape, as [float32]. *)
Variable randn : list nat -> tensor.

Variable lib : library.

(** [convert_to_tflite(keras_model_path, output_path, quantize)]. *)
Definition convert_to_tflite (keras_model_path output_path : string) (quantize : bool)
  : run string :=
  emit (ConvertToTflite keras_model_path output_path quantize) ;;;
  check (load_model lib keras_model_path) ;;;
  tflite_model <- lift (if quantize then Raise (int8_refusal lib)
                        else convert_float16 lib keras_model_path) ;;
  check (makedirs (os_makedirs lib) (dirname output_path)) ;;;
  check (write_bytes lib output_path tflite_model) ;;;
  emit (WriteBytes output_path tflite_model) ;;;
  ret output_path.

(** [create_labels_file(output_dir)]: the path and text written. *)
Definition create_labels_file (output_dir : string) : string * string :=
  let labels_path := path_join output_dir "labels.txt" in
  (labels_path, labels_text Config.CLASS_NAMES).

(** [verify_tflite_model(tflite_path)] with [test_image_path] left at
    [None]: the function loads, runs and prints, and returns normally
    unless the interpreter raised. *)
Definition verify_tflite_model (tflite_path : string) : result report :=
  match load_interpreter tflite_path with
  | Raise e => Raise e
  | Return interp =>
      let test_input := randn (input_shape interp) in
      match invoke interp test_input with
      | Raise e => Raise e
      | Return output =>
          Return {| test_output_shape := shape output;
                    test_output := row0 output;
                    sum_of_probabilities := qsum (row0 output) |}
      end
  end.

(** [export_all(keras_model_path, output_dir)]. *)
Definition export_all (keras_model_path output_dir : string) : run unit :=
  let float16_path := path_join output_dir "fungal_classifier.tflite" in
  let quant_path := path_join output_dir "fungal_classifier_quant.tflite" in
  convert_to_tflite keras_model_path float16_path false ;;;
  convert_to_tflite keras_model_path quant_path true ;;;
  check (write_text lib (fst (create_labels_file output_dir))
                        (snd (create_labels_file output_dir))) ;;;
  emit (WriteText (fst (create_labels_file output_dir))
                  (snd (create_labels_file output_dir))) ;;;
  r <- lift (verify_tflite_model float16_path) ;;
  emit (VerifyTfliteModel float16_path r) ;;;
  ret tt.


End Exporting.

End ExportTflite.

(** ** What the validator keeps true *)

Module ValidateSpec.

(** What the scanning loop keeps true of [class_counts]. *)
Definition scanned (entries : list (string * node)) (class_counts : Py.dict nat) : Prop :=
  NoDup (Py.keys class_counts) /\
  Forall (fun kv =>
            1 <= snd kv /\
            Py.startswith "." (fst kv) = false /\
            exists files, In (fst kv, Dir files) entries /\
                          snd kv = Validate.count_images files) class_counts.

End ValidateSpec.

(** ** More on directory trees *)

Module Tree.
Import Py.

(** The same tree with the bytes of every file replaced: names, kinds and
    order stay. *)
Fixpoint retouch (f : string -> string) (n : node) {struct n} : node :=
  match n with
  | File content => File (f content)
  | Dir entries =>
      Dir ((fix go (es : list (string * node)) : list (string * node) :=
              match es with
              | [] => []
              | (name, child) :: rest => (name, retouch f child) :: go rest
              end) entries)
  end.

(** The inner loop of [retouch], under a name of its own. *)
Definition retouch_entries (f : string -> string) (es : list (string * node))
  : list (string * node) :=
  (fix go (es : list (string * node)) : list (string * node) :=
     match es with
     | [] => []
     | (name, child) :: rest => (name, retouch f child) :: go rest
     end) es.

(** The paths of the directories strictly below a node, parents before
    children. *)
Fixpoint dirs_under (subdir : string) (n : node) {struct n} : list string :=
  match n with
  | File _ => []
  | Dir entries =>
      (fix go (es : list (string * node)) : list string :=
         match es with
         | [] => []
         | (name, child) :: rest =>
             match child with
             | File _ => go rest
             | Dir _ =>
                 (path_join subdir name
                    :: dirs_under (path_join subdir name) child ++ go rest)%list
             end
         end) entries
  end.

(** The inner loop of [dirs_under], under a name of its own. *)
Definition dirs_below (subdir : string) (es : list (string * node)) : list string :=
  (fix go (es : list (string * node)) : list string :=
     match es with
     | [] => []
     | (name, child) :: rest =>
         match child with
         | File _ => go rest
         | Dir _ =>
             (path_join subdir name
                :: dirs_under (path_join subdir name) child ++ go rest)%list
         end
     end) es.

(** [c not in s] for the dot. *)
Fixpoint dot_free (s : string) : bool :=
  match s with
  | EmptyString => true
  | String c r => negb (Ascii.eqb c ".") && dot_free r
  end.

End Tree.

(** ** [export_tflite.py]: labelling a prediction *)

Module Predict.
Import Py.

(** [np.argmax] over a non-empty vector, scanning from the left with the
    best index and value so far: a later entry wins only when it is
    strictly greater, so the first maximum is returned. *)
Fixpoint argmax_from (best_i : nat) (best : Q) (i : nat) (xs : list Q) : nat * Q :=
  match xs with
  | [] => (best_i, best)
  | x :: r =>
      if Qle_bool x best
      then argmax_from best_i best (S i) r
      else argmax_from i x (S i) r
  end.

(** What the two labelling lines of [verify_tflite_model] lead to. *)
Inductive labelled : Type :=
| Predicted (predicted_class : string) (confidence : Q)
| EmptyOutput
| IndexError (index : nat).

(** [predicted_class = CLASS_NAMES[np.argmax(output[0])]] and
    [confidence = np.max(output[0]) * 100], as a function of [output[0]]. *)
Definition label_prediction (class_names : list string) (output0 : list Q) : labelled :=
  match output0 with
  | [] => EmptyOutput
  | x :: r =>
      let '(i, best) := argmax_from 0 x 1 r in
      match nth_error class_names i with
      | Some name => Predicted name (best * 100)%Q
      | None => IndexError i
      end
  end.

(** What it means for [(i, best)] to be the first maximum of a vector. *)
Definition first_maximum (v : list Q) (i : nat) (best : Q) : Prop :=
  nth_error v i = Some best /\
  Forall (fun x => x <= best)%Q v /\
  forall j y, j < i -> nth_error v j = Some y -> (y < best)%Q.

End Predict.

(** ** [admin/main.py]: the training state and the disease records *)

Module Admin.
Import Py.

(** A handler either returns a body or raises [HTTPException]. *)
Inductive http (A : Type) : Type :=
| Ok (body : A)
| HTTPException (status_code : nat) (detail : string).
Arguments Ok {A} body.
Arguments HTTPException {A} status_code detail.

(** *** Training state *)

(** The module-level dictionary [training_state]. *)
Record training_state : Type := {
  status : string;
  message : string;
  started_at : option string;
  completed_at : option string;
  accuracy : option Q;
  val_accuracy : option Q
}.

Definition initial_training_state : training_state :=
  {| status := "idle"; message := "No training in progress";
     started_at := None; completed_at := None;
     accuracy := None; val_accuracy := None |}.

Definition set_status (v : string) (s : training_state) : training_state :=
  {| status := v; message := message s; started_at := started_at s;
     completed_at := completed_at s; accuracy := accuracy s;
     val_accuracy := val_accuracy s |}.

Definition set_message (v : string) (s : training_state) : training_state :=
  {| status := status s; message := v; started_at := started_at s;
     completed_at := completed_at s; accuracy := accuracy s;
     val_accuracy := val_accuracy s |}.

Definition set_started_at (v : string) (s : training_state) : training_state :=
  {| status := status s; message := message s; started_at := Some v;
     completed_at := completed_at s; accuracy := accuracy s;
     val_accuracy := val_accuracy s |}.

Definition set_completed_at (v : string) (s : training_state) : training_state :=
  {| status := status s; message := message s; started_at := started_at s;
     completed_at := Some v; accuracy := accuracy s;
     val_accuracy := val_accuracy s |}.

(** A byte that continues a UTF-8 sequence ([10xxxxxx]). *)
Definition is_continuation (c : ascii) : bool :=
  let n := nat_of_ascii c in ((128 <=? n) && (n <? 192))%nat.

(** [s[:n]] on a [str]: the first [n] code points, on the UTF-8 bytes. *)
Fixpoint take_chars (n : nat) (s : string) : string :=
  match s with
  | EmptyString => EmptyString
  | String c r =>
      if is_continuation c then String c (take_chars n r)
      else match n with
           | 0 => EmptyString
           | S m => String c (take_chars m r)
           end
  end.

(** [len(s)] on a [str]: the number of code points. *)
Fixpoint len_chars (s : string) : nat :=
  match s with
  | EmptyString => 0
  | String c r => if is_continuation c then len_chars r else S (len_chars r)
  end.

(** How one [subprocess.run] call ends: the child exits with a return
    code and what it wrote to standard error, or the call raises (for the
    training script also on the one-hour timeout) and [str(e)] is kept. *)
Inductive process : Type :=
| Exited (returncode : Z) (stderr : string)
| RunRaised (text : string).

(** The scripts [run_training] launches. *)
Inductive command : Type :=
| TrainScript
| ExportScript.

(** [start_training(background_tasks)]: the response, the state left and
    the background tasks queued, [tasks] being those queued before. *)
Definition start_training (s : training_state) (tasks : nat)
  : http string * training_state * nat :=
  if String.eqb (status s) "running" then
    (HTTPException 400 "Training already in progress", s, tasks)
  else
    (Ok "Training started",
     set_message "Training starting..." (set_status "starting" s),
     S tasks).

(** The state [run_training] publishes before it launches anything. *)
Definition run_training_begin (now : string) (s : training_state) : training_state :=
  set_started_at now
    (set_message "Training in progress..." (set_status "running" s)).

(** The rest of [run_training()]: the scripts launched and the state
    published at the end.  [train] and [export] are the ways the two
    [subprocess.run] calls end, [now] the clock at the end. *)
Definition run_training_end (now : string) (train export : process)
    (s : training_state) : list command * training_state :=
  let '(launched, s) :=
    match train with
    | Exited returncode stderr =>
        if Z.eqb returncode 0 then
          let s := set_message "Training completed successfully"
                     (set_status "completed" s) in
          match export with
          | Exited _ _ => ([TrainScript; ExportScript], s)
          | RunRaised text =>
              ([TrainScript; ExportScript],
               set_message ("Training error: " ++ text) (set_status "failed" s))
          end
        else
          ([TrainScript],
           set_message ("Training failed: " ++ take_chars 500 stderr)
             (set_status "failed" s))
    | RunRaised text =>
        ([TrainScript],
         set_message ("Training error: " ++ text) (set_status "failed" s))
    end in
  (launched, set_completed_at now s).

(** [run_training()] from start to end. *)
Definition run_training (now1 now2 : string) (train export : process)
    (s : training_state) : list command * training_state :=
  run_training_end now2 train export (run_training_begin now1 s).

(** *** The handler and the task, one assignment at a time *)

(** Where the thread of one start request stands: in the handler
    [start_training] (arrived, refused, past the guard with the task added,
    after the assignment of the status), waiting as a background task, or
    in [run_training] after each of its assignments and during each of its
    two [subprocess.run] calls. *)
Inductive position : Type :=
| Arrived
| Refused
| Accepted
| SetStarting
| Queued
| SetRunning
| SetProgress
| Training
| SetCompleted
| Exporting
| SetFailed (text : string)
| Closing
| Finished.

(** What a step takes from outside: nothing, the clock, or the way a
    [subprocess.run] call ends. *)
Inductive input : Type :=
| Plain
| Clock (now : string)
| Ended (p : process).

(** One step of a thread on the shared dictionary: the guard of
    [start_training], one assignment to [training_state], or the end of a
    [subprocess.run] call with the assignment that follows it. *)
Definition advance (i : input) (p : position) (s : training_state)
  : option (position * training_state) :=
  match p with
  | Arrived =>
      match i with
      | Plain => if String.eqb (status s) "running" then Some (Refused, s)
                 else Some (Accepted, s)
      | _ => None
      end
  | Accepted =>
      match i with Plain => Some (SetStarting, set_status "starting" s) | _ => None end
  | SetStarting =>
      match i with
      | Plain => Some (Queued, set_message "Training starting..." s)
      | _ => None
      end
  | Queued =>
      match i with Plain => Some (SetRunning, set_status "running" s) | _ => None end
  | SetRunning =>
      match i with
      | Plain => Some (SetProgress, set_message "Training in progress..." s)
      | _ => None
      end
  | SetProgress =>
      match i with Clock now => Some (Training, set_started_at now s) | _ => None end
  | Training =>
      match i with
      | Ended (Exited returncode stderr) =>
          if Z.eqb returncode 0 then Some (SetCompleted, set_status "completed" s)
          else Some (SetFailed ("Training failed: " ++ take_chars 500 stderr),
                     set_status "failed" s)
      | Ended (RunRaised text) =>
          Some (SetFailed ("Training error: " ++ text), set_status "failed" s)
      | _ => None
      end
  | SetCompleted =>
      match i with
      | Plain => Some (Exporting, set_message "Training completed successfully" s)
      | _ => None
      end
  | Exporting =>
      match i with
      | Ended (Exited _ _) => Some (Closing, s)
      | Ended (RunRaised text) =>
          Some (SetFailed ("Training error: " ++ text), set_status "failed" s)
      | _ => None
      end
  | SetFailed text =>
      match i with Plain => Some (Closing, set_message text s) | _ => None end
  | Closing =>
      match i with Clock now => Some (Finished, set_completed_at now s) | _ => None end
  | Refused | Finished => None
  end.

(** Steps of one thread with no other thread in between. *)
Fixpoint advance_all (inputs : list input) (p : position) (s : training_state)
  : option (position * training_state) :=
  match inputs with
  | [] => Some (p, s)
  | i :: rest =>
      match advance i p s with
      | Some (p', s') => advance_all rest p' s'
      | None => None
      end
  end.


(** The server between two steps: the shared dictionary and the position
    of the thread of every start request received so far. *)
Record server : Type := {
  state : training_state;
  runs : list position
}.

Definition initial_server : server :=
  {| state := initial_training_state; runs := [] |}.

Fixpoint set_nth {A : Type} (i : nat) (a : A) (l : list A) : list A :=
  match l, i with
  | [], _ => []
  | _ :: r, 0 => a :: r
  | x :: r, S j => x :: set_nth j a r
  end.

(** What happens to the server: a start request arrives, or the thread of
    the [i]-th request makes its next step.  Steps of different threads
    come in any order. *)
Inductive event : Type :=
| Request
| Advance (i : nat) (inp : input).

Definition step (e : event) (srv : server) : option server :=
  match e with
  | Request => Some {| state := state srv; runs := (runs srv ++ [Arrived])%list |}
  | Advance i inp =>
      match nth_error (runs srv) i with
      | None => None
      | Some p =>
          match advance inp p (state srv) with
          | Some (p', s') => Some {| state := s'; runs := set_nth i p' (runs srv) |}
          | None => None
          end
      end
  end.

Fixpoint steps (es : list event) (srv : server) : option server :=
  match es with
  | [] => Some srv
  | e :: rest =>
      match step e srv with
      | Some srv' => steps rest srv'
      | None => None
      end
  end.

(** Whether a thread has made the assignment of [started_at]. *)
Definition past_start (p : position) : bool :=
  match p with
  | Training | SetCompleted | Exporting | SetFailed _ | Closing | Finished => true
  | _ => false
  end.

(** Whether a thread is still before its first assignment. *)
Definition before_assignments (p : position) : bool :=
  match p with
  | Arrived | Accepted => true
  | _ => false
  end.

(** Start requests sent one after the other with no task beginning in
    between. *)
Fixpoint start_n (n : nat) (s : training_state) (tasks : nat) : training_state * nat :=
  match n with
  | 0 => (s, tasks)
  | S m =>
      let '(_, s', tasks') := start_training s tasks in start_n m s' tasks'
  end.

(** What every reachable server state satisfies. *)
Definition coherent (srv : server) : Prop :=
  let s := state srv in
  In (status s) ["idle"; "starting"; "running"; "completed"; "failed"] /\
  accuracy s = None /\ val_accuracy s = None /\
  (status s = "completed" \/ status s = "failed" -> started_at s <> None) /\
  (completed_at s <> None -> started_at s <> None) /\
  Forall (fun p => past_start p = true -> started_at s <> None) (runs srv) /\
  (status s = "idle" ->
   s = initial_training_state /\
   Forall (fun p => before_assignments p = true) (runs srv)).

(** *** Disease records *)

(** A JSON value of a disease record: a string, a list of strings, or
    anything else, kept as it is. *)
Inductive value : Type :=
| VStr (s : string)
| VList (l : list string)
| VOther (raw : string).

(** [DiseaseInfoUpdate]: every field optional. *)
Record disease_info_update : Type := {
  u_name : option string;
  u_description : option string;
  u_symptoms : option (list string);
  u_causes : option (list string);
  u_treatment : option (list string);
  u_whenToSeeDoctor : option (list string);
  u_severity : option string;
  u_color : option string
}.

Definition field_of {A : Type} (key : string) (wrap : A -> value) (v : option A)
  : list (string * value) :=
  match v with
  | Some a => [(key, wrap a)]
  | None => []
  end.

(** [data.dict(exclude_none=True).items()]: the fields that were given, in
    declaration order. *)
Definition provided_fields (data : disease_info_update) : list (string * value) :=
  (field_of "name" VStr (u_name data)
   ++ field_of "description" VStr (u_description data)
   ++ field_of "symptoms" VList (u_symptoms data)
   ++ field_of "causes" VList (u_causes data)
   ++ field_of "treatment" VList (u_treatment data)
   ++ field_of "whenToSeeDoctor" VList (u_whenToSeeDoctor data)
   ++ field_of "severity" VStr (u_severity data)
   ++ field_of "color" VStr (u_color data))%list.

(** [d[k]] and [k in d]. *)
Fixpoint dict_get {V : Type} (d : dict V) (k : string) : option V :=
  match d with
  | [] => None
  | (k', v) :: r => if String.eqb k' k then Some v else dict_get r k
  end.

(** No key occurs twice. *)
Fixpoint distinct_keys (l : list string) : bool :=
  match l with
  | [] => true
  | k :: r => negb (str_in k r) && distinct_keys r
  end.

(** The file [disease_info.json]: absent, or holding a dictionary of
    records. *)
Definition store : Type := option (dict (dict value)).

(** [load_disease_info()]. *)
Definition load_disease_info (file : store) : dict (dict value) :=
  match file with
  | Some diseases => diseases
  | None => []
  end.

(** [save_disease_info(data)]. *)
Definition save_disease_info (data : dict (dict value)) : store := Some data.

(** [get_disease(disease_id)]. *)
Definition get_disease (disease_id : string) (file : store) : http (dict value) :=
  match dict_get (load_disease_info file) disease_id with
  | None => HTTPException 404 "Disease not found"
  | Some record => Ok record
  end.

(** The loop [diseases[disease_id][field] = value] over the given
    fields. *)
Definition apply_fields (record : dict value) (fields : list (string * value))
  : dict value :=
  fold_left (fun r fv => dict_set r (fst fv) (snd fv)) fields record.

(** [update_disease(disease_id, data)]: the response and the file left. *)
Definition update_disease (disease_id : string) (data : disease_info_update)
    (file : store) : http (dict value) * store :=
  let diseases := load_disease_info file in
  match dict_get diseases disease_id with
  | None => (HTTPException 404 "Disease not found", file)
  | Some record =>
      let record' := apply_fields record (provided_fields data) in
      let diseases' := dict_set diseases disease_id record' in
      (Ok record', save_disease_info diseases')
  end.

End Admin.

(** ** [admin/auth.py] *)

Module Auth.

(** [os.getenv(name, default)]. *)
Definition getenv (env : string -> option string) (name default : string) : string :=
  match env name with
  | Some v => v
  | None => default
  end.

(** [ADMIN_TOKEN], read from the environment when the module is loaded. *)
Definition ADMIN_TOKEN (env : string -> option string) : string :=
  getenv env "ADMIN_TOKEN" "dev-admin-token-change-in-production".

(** What [verify_token] raises. *)
Inductive auth_error : Type :=
| Unauthorized (detail : string)
| Forbidden (detail : string).

(** [verify_token(credentials)], [credentials] being the bearer token of
    the request if it has one. *)
Definition verify_token (env : string -> option string) (credentials : option string)
  : bool + auth_error :=
  match credentials with
  | None => inr (Unauthorized "Missing authentication token")
  | Some token =>
      if negb (String.eqb token (ADMIN_TOKEN env))
      then inr (Forbidden "Invalid authentication token")
      else inl true
  end.

(** [check_login(username, password)]; [env_now] is the environment at the
    time of the call, [env] the one the module was loaded in. *)
Definition check_login (env env_now : string -> option string)
    (username password : string) : option string :=
  if String.eqb username "admin"
     && String.eqb password (getenv env_now "ADMIN_PASSWORD" "admin123")
  then Some (ADMIN_TOKEN env)
  else None.

End Auth.

(** ** [scripts/prepare_training_data.py]: sorting the DermNet files *)

Module PrepareData.
Import Py.

Definition FUNGAL_FOLDER : string :=
  "Tinea Ringworm Candidiasis and other Fungal Infections".

(** [CLASS_PATTERNS], in the order of the dictionary literal. *)
Definition CLASS_PATTERNS : list (string * list string) :=
  [ ("candidiasis",
     ["candid"; "candida"; "monialisis"; "balanitis"; "intertrigo"; "perleche";
      "cheilitis"]);
    ("tinea_corporis",
     ["tineacorporis"; "tinea-corporis"; "ringworm"; "kerion"; "majocchi";
      "tineagroin"; "tinea-groin"]);
    ("tinea_pedis",
     ["tineaped"; "tineafeet"; "tinea-pedis"; "tinea-feet"; "athletes-foot"]);
    ("tinea_versicolor",
     ["tineaversicolor"; "tinea-versicolor"; "pityriasis"]) ].

(** [pattern in s]. *)
Fixpoint contains (pattern s : string) : bool :=
  match s with
  | EmptyString => String.prefix pattern s
  | String _ r => String.prefix pattern s || contains pattern r
  end.

(** [any(pattern in filename_lower for pattern in patterns)]. *)
Definition matches (patterns : list string) (filename_lower : string) : bool :=
  existsb (fun pattern => contains pattern filename_lower) patterns.

(** The loop over [CLASS_PATTERNS.items()] with its [break]: the first
    class one of whose patterns occurs in the name. *)
Fixpoint classify (class_patterns : list (string * list string))
    (filename_lower : string) : option string :=
  match class_patterns with
  | [] => None
  | (disease_class, patterns) :: rest =>
      if matches patterns filename_lower
      then Some disease_class
      else classify rest filename_lower
  end.

(** [d[k].append(x)] on a dictionary of lists, for a key it has. *)
Fixpoint dict_append {A : Type} (d : dict (list A)) (k : string) (x : A)
  : dict (list A) :=
  match d with
  | [] => []
  | (k', l) :: r =>
      if String.eqb k' k then (k', (l ++ [x])%list) :: r
      else (k', l) :: dict_append r k x
  end.

(** The entry of a directory under a name, if there is one. *)
Fixpoint child_named (entries : list (string * node)) (name : string) : option node :=
  match entries with
  | [] => None
  | (name', n) :: rest =>
      if String.eqb name' name then Some n else child_named rest name
  end.

(** What is at [dir / name], [dir] being what is at a path. *)
Definition child (dir : option node) (name : string) : option node :=
  match dir with
  | Some (Dir entries) => child_named entries name
  | _ => None
  end.

Section Finding.

(** [str.lower]. *)
Variable str_lower : string -> string.

(** [str(EXTRACT_DIR)]. *)
Variable extract_dir : string.

Definition fungal_dir_path (split : string) : string :=
  path_join (path_join extract_dir split) FUNGAL_FOLDER.

(** The body of the loop over [fungal_dir.iterdir()] for one entry. *)
Definition file_into (split : string) (fungal_images : dict (list string))
    (e : string * node) : dict (list string) :=
  if negb (is_file (snd e)) then fungal_images
  else
    match classify CLASS_PATTERNS (str_lower (fst e)) with
    | Some disease_class =>
        dict_append fungal_images disease_class
          (path_join (fungal_dir_path split) (fst e))
    | None => fungal_images
    end.

(** One round of the loop over the splits. *)
Definition find_in_split (root : option node) (split : string)
    (fungal_images : dict (list string)) : result (dict (list string)) :=
  match child (child root split) FUNGAL_FOLDER with
  | None => Return fungal_images
  | Some (File _) => Raise (NotADirectoryError (fungal_dir_path split))
  | Some (Dir entries) => Return (fold_left (file_into split) entries fungal_images)
  end.

(** [find_fungal_images()], [root] being what is at [EXTRACT_DIR]. *)
Definition find_fungal_images (root : option node) : result (dict (list string)) :=
  let fungal_images := map (fun cp => (fst cp, [])) CLASS_PATTERNS in
  match find_in_split root "train" fungal_images with
  | Raise e => Raise e
  | Return fungal_images => find_in_split root "test" fungal_images
  end.

(** The regular files of the fungal folder of one split, as path and
    name. *)
Definition candidates_in (root : option node) (split : string)
  : list (string * string) :=
  match child (child root split) FUNGAL_FOLDER with
  | Some (Dir entries) =>
      map (fun e => (path_join (fungal_dir_path split) (fst e), fst e))
          (filter (fun e => is_file (snd e)) entries)
  | _ => []
  end.

Definition is_class (disease_class : string) (found : option string) : bool :=
  match found with
  | Some c => String.eqb c disease_class
  | None => false
  end.

(** The paths among some candidates whose lower-cased name is sorted into
    a class. *)
Definition sorted_into (disease_class : string) (cands : list (string * string))
  : list string :=
  map fst (filter (fun c => is_class disease_class
                              (classify CLASS_PATTERNS (str_lower (snd c)))) cands).

(** For every class, in order, the candidates sorted into it. *)
Definition grouped (class_patterns : list (string * list string))
    (cands : list (string * string)) : dict (list string) :=
  map (fun cp => (fst cp, sorted_into (fst cp) cands)) class_patterns.

End Finding.

(** [p] occurs in [s]. *)
Definition occurs_in (p s : string) : Prop :=
  exists pre post, s = pre ++ p ++ post.

End PrepareData.

(** ** Sample data *)

Module Samples.
Import Py.

(** [n] image files [img0.jpg], [img1.jpg], ... *)
Definition images (n : nat) : list (string * node) :=
  map (fun k => ("img" ++ str_of_nat k ++ ".jpg", File "JFIF")) (seq 0 n).

(** Two classes with 2 and 5 images, a stray text file in the first. *)
Definition small_dataset : list (string * node) :=
  [ ("tinea_pedis", Dir (images 2 ++ [("notes.txt", File "todo")])%list);
    ("candidiasis", Dir (images 5)) ].

(** One populated class next to an empty one and a hidden one. *)
Definition single_class_dataset : list (string * node) :=
  [ ("candidiasis", Dir (images 40));
    ("tinea_pedis", Dir []);
    (".cache", Dir (images 3)) ].

(** Two classes with 10 images each. *)
Definition two_class_dataset : list (string * node) :=
  [ ("tinea_pedis", Dir (images 10));
    ("candidiasis", Dir (images 10)) ].

(** A run in which every library call returns. *)
Definition working_library : Train.library :=
  {| Train.os_makedirs := fun _ => None;
     Train.flow_from_directory := fun _ _ => None;
     Train.mobilenet_v2 := None;
     Train.model_fit := fun _ _ _ => None;
     Train.combine_histories := None;
     Train.model_evaluate := fun _ _ => None;
     Train.savefig := fun _ => None;
     Train.model_save := fun _ _ => None |}.

(** An export in which every library call that can return does. *)
Definition working_exporter : ExportTflite.library :=
  {| ExportTflite.load_model := fun _ => None;
     ExportTflite.convert_float16 := fun _ => Return "TFL3";
     ExportTflite.int8_refusal :=
       ValueError (Some "For full integer quantization, a `representative_dataset` must be specified.");
     ExportTflite.os_makedirs := fun _ => None;
     ExportTflite.write_bytes := fun _ _ => None;
     ExportTflite.write_text := fun _ _ => None |}.

(** A tensor of the given shape filled with zeros. *)
Definition zeros (sh : list nat) : Preprocess.tensor :=
  {| Preprocess.shape := sh;
     Preprocess.data := repeat 0%Q (fold_right Nat.mul 1 sh) |}.

(** A stand-in imaging back end that keeps the documented shapes: every
    path loads as a black image of the requested size, a buffer that starts
    with the GIF signature decodes to one 2 x 2 frame in a rank-4 array, any
    other non-empty buffer to a 2 x 2 rank-3 array, and resizing gives a
    black array of the target size and is refused when the target has a
    zero side. *)
Definition black_load_img (path : string) (target_size : nat * nat)
  : result Preprocess.tensor :=
  Return (zeros [fst target_size; snd target_size; 3]).

Definition black_img_to_array (img : Preprocess.tensor) : Preprocess.tensor := img.

Definition black_decode_image (bytes : string) (channels : nat)
  : result Preprocess.tensor :=
  if String.eqb bytes "" then Raise (RuntimeError "empty buffer")
  else if startswith "GIF8" bytes then Return (zeros [1; 2; 2; channels])
  else Return (zeros [2; 2; channels]).

Definition black_resize (t : Preprocess.tensor) (size : nat * nat)
  : result Preprocess.tensor :=
  if ((fst size =? 0) || (snd size =? 0))%nat
  then Raise (RuntimeError "output dimensions must be positive")
  else
    match Preprocess.shape t with
    | [_; _; c] => Return (zeros [fst size; snd size; c])
    | [n; _; _; c] => Return (zeros [n; fst size; snd size; c])
    | sh => Return (zeros sh)
    end.

(** An interpreter whose single output row has two entries that sum to
    7/10. *)
Definition lopsided_interpreter : ExportTflite.interpreter :=
  {| ExportTflite.input_shape := [1; 224; 224; 3];
     ExportTflite.invoke := fun _ =>
       Return {| Preprocess.shape := [1; 2];
                 Preprocess.data := [1 # 2; 1 # 5]%Q |} |}.

Definition lopsided_loader (tflite_path : string) : result ExportTflite.interpreter :=
  Return lopsided_interpreter.

End Samples.

(** ** More sample data *)

Module MoreSamples.
Import Py.

(** Two populated classes next to a class directory without images. *)
Definition dataset_with_empty_class : list (string * node) :=
  [ ("tinea_pedis", Dir (Samples.images 10));
    ("candidiasis", Dir (Samples.images 10));
    ("tinea_versicolor", Dir []) ].

(** One request whose run is in the export, training having exited with
    0, and a second request that has just been accepted. *)
Definition overlapping_requests : list Admin.event :=
  [ Admin.Request;
    Admin.Advance 0 Admin.Plain; Admin.Advance 0 Admin.Plain; Admin.Advance 0 Admin.Plain;
    Admin.Advance 0 Admin.Plain; Admin.Advance 0 Admin.Plain;
    Admin.Advance 0 (Admin.Clock "t1");
    Admin.Advance 0 (Admin.Ended (Admin.Exited 0 ""));
    Admin.Advance 0 Admin.Plain;
    Admin.Request;
    Admin.Advance 1 Admin.Plain ].

Definition overlapping_server : Admin.server :=
  {| Admin.state :=
       {| Admin.status := "completed";
          Admin.message := "Training completed successfully";
          Admin.started_at := Some "t1";
          Admin.completed_at := None;
          Admin.accuracy := None;
          Admin.val_accuracy := None |};
     Admin.runs := [Admin.Exporting; Admin.Accepted] |}.

(** An extracted archive: a [train] split with four files and a
    sub-directory in its fungal folder, and no [test] split. *)
Definition dermnet_tree : node :=
  Dir [ ("train",
         Dir [ (PrepareData.FUNGAL_FOLDER,
                Dir [ ("Candida-Intertrigo-3.jpg", File "a");
                      ("ringworm-body-12.jpg", File "b");
                      ("eczema-7.jpg", File "c");
                      ("tinea-pedis-44.jpg", File "d");
                      ("kerion-extra", Dir []) ]) ]) ].

(** An extracted archive with a file whose name holds a pattern of
    [candidiasis] and a pattern of [tinea_corporis]. *)
Definition ambiguous_tree : node :=
  Dir [ ("train",
         Dir [ (PrepareData.FUNGAL_FOLDER,
                Dir [ ("candida-ringworm-1.jpg", File "a");
                      ("ringworm-body-12.jpg", File "b") ]) ]) ].

End MoreSamples.

(** * Properties *)

(** ** Dataset validation *)

Module ValidateFacts.
Import Py Validate.

Lemma dict_set_fresh {V : Type} (d : dict V) (k : string) (v : V) :
  ~ In k (keys d) -> dict_set d k v = (d ++ [(k, v)])%list.
Proof.
  induction d as [|[k' v'] d IH]; simpl; intros Hk; [reflexivity|].
  destruct (String.eqb_spec k' k) as [->|_].
  - exfalso; apply Hk; now left.
  - rewrite IH; [reflexivity|]. intros H; apply Hk; now right.
Qed.

(** On a listing without repeated names the loop appends, class after
    class, exactly the populated classes. *)
Lemma scan_classes_populated (entries : list (string * node)) :
  forall acc : dict nat,
    NoDup (map fst entries) ->
    (forall k, In k (keys acc) -> ~ In k (map fst entries)) ->
    scan_classes entries acc = (acc ++ populated_classes entries)%list.
Proof.
  induction entries as [|[name child] rest IH]; intros acc Hnd Hdisj; simpl.
  - now rewrite app_nil_r.
  - simpl in Hnd. inversion Hnd as [|? ? Hnotin Hnd']; subst.
    assert (Hrest : forall k, In k (keys acc) -> ~ In k (map fst rest)).
    { intros k Hk Hin. apply (Hdisj k Hk). now right. }
    destruct child as [content|files]; simpl.
    + now apply IH.
    + destruct (startswith "." name); simpl; [now apply IH|].
      destruct (0 <? count_images files)%nat; [|now apply IH].
      rewrite dict_set_fresh.
      * rewrite IH; [now rewrite <- app_assoc| assumption |].
        intros k Hk. unfold keys in Hk. rewrite map_app in Hk.
        apply in_app_or in Hk. destruct Hk as [Hk|[<-|[]]]; [now apply Hrest|assumption].
      * intros Hin. apply (Hdisj name Hin). now left.
Qed.

Lemma scan_classes_distinct (entries : list (string * node)) :
  distinct_names entries ->
  scan_classes entries [] = populated_classes entries.
Proof.
  intros Hnd. now rewrite scan_classes_populated.
Qed.

Lemma insufficient_none (class_counts : dict nat) :
  Forall (fun kv => MIN_IMAGES_PER_CLASS <= snd kv) class_counts ->
  insufficient_classes class_counts = [].
Proof.
  unfold insufficient_classes.
  induction 1 as [|kv l Hkv _ IH]; simpl; [reflexivity|].
  destruct (Nat.ltb_spec (snd kv) MIN_IMAGES_PER_CLASS); [lia|exact IH].
Qed.

Lemma sum_singleton (n : nat) : sum [n] = n.
Proof. unfold sum; simpl; lia. Qed.

(** C7.  A dataset with at least two populated classes, at least three
    images in each of them and at least twenty images in all is accepted:
    [validate_dataset] returns [True], no message, and statistics that
    are the dataset's own class count, image total and per-class
    counts. *)
Theorem validate_dataset_accepts (data_dir : string) (entries : list (string * node)) :
  distinct_names entries ->
  2 <= List.length (populated_classes entries) ->
  Forall (fun kv => 3 <= snd kv) (populated_classes entries) ->
  20 <= sum (values (populated_classes entries)) ->
  validate_dataset data_dir (Some (Dir entries))
  = Return (true, None,
            Stats (List.length (populated_classes entries))
                  (sum (values (populated_classes entries)))
                  (populated_classes entries)).
Proof.
  intros Hnd Hclasses Hper Htotal.
  unfold validate_dataset. rewrite (scan_classes_distinct _ Hnd).
  set (pop := populated_classes entries) in *.
  assert (Herr : collect_errors data_dir pop = []).
  { unfold collect_errors, class_errors, per_class_errors, total_errors.
    rewrite (insufficient_none pop Hper). simpl List.length.
    destruct (Nat.eqb_spec (List.length pop) 0); [lia|].
    destruct (Nat.ltb_spec (List.length pop) MIN_CLASSES);
      [unfold MIN_CLASSES in *; lia|].
    destruct (Nat.ltb_spec (sum (values pop)) MIN_TOTAL_IMAGES);
      [unfold MIN_TOTAL_IMAGES in *; lia|].
    reflexivity. }
  now rewrite Herr.
Qed.

Lemma validate_dataset_accepts_witness :
  validate_dataset "data" (Some (Dir Samples.two_class_dataset))
  = Return (true, None,
            Stats 2 20 [("tinea_pedis", 10); ("candidiasis", 10)]).
Proof.
  apply (validate_dataset_accepts "data" Samples.two_class_dataset).
  - unfold distinct_names; simpl.
    repeat constructor; simpl; intuition discriminate.
  - vm_compute; lia.
  - vm_compute; repeat constructor.
  - vm_compute; lia.
Defined.

(** C6.  With exactly one populated class the dataset is rejected whatever
    the number of images in it: the message is the three
    insufficient-classes lines, the second of which names the class, and
    neither the per-class nor the total minimum contributes a line. *)
Theorem validate_dataset_single_class
    (data_dir : string) (entries : list (string * node)) (cls : string) (n : nat) :
  distinct_names entries ->
  populated_classes entries = [(cls, n)] ->
  validate_dataset data_dir (Some (Dir entries))
  = Return (false,
            Some (join newline
                    [ "❌ Insufficient disease classes: 1 (minimum: 2)";
                      "   Current classes: " ++ cls;
                      "   Please add images to at least 2 different disease folders" ]),
            Stats 1 n [(cls, n)]).
Proof.
  intros Hnd Hpop.
  unfold validate_dataset. rewrite (scan_classes_distinct _ Hnd), Hpop.
  unfold values; simpl map. rewrite sum_singleton.
  unfold collect_errors, class_errors, per_class_errors, total_errors.
  simpl List.length. simpl Nat.eqb. simpl Nat.ltb. simpl Nat.leb.
  rewrite !andb_false_r. reflexivity.
Qed.

Lemma validate_dataset_single_class_witness :
  validate_dataset "data" (Some (Dir Samples.single_class_dataset))
  = Return (false,
            Some (join newline
                    [ "❌ Insufficient disease classes: 1 (minimum: 2)";
                      "   Current classes: candidiasis";
                      "   Please add images to at least 2 different disease folders" ]),
            Stats 1 40 [("candidiasis", 40)]).
Proof.
  apply (validate_dataset_single_class "data" Samples.single_class_dataset
           "candidiasis" 40).
  - unfold distinct_names; simpl.
    repeat constructor; simpl; intuition discriminate.
  - vm_compute; reflexivity.
Defined.

(** C5.  With two populated classes holding 2 and 5 images (in either
    listing order) the dataset is rejected and the message carries both
    findings at once: the per-class block with the 2-image class and
    its deficit of 1, followed by the total block with the count 7 and the
    shortfall of 13. *)
Theorem validate_dataset_two_findings
    (data_dir : string) (entries : list (string * node)) (small large : string) :
  distinct_names entries ->
  populated_classes entries = [(small, 2); (large, 5)] \/
  populated_classes entries = [(large, 5); (small, 2)] ->
  validate_dataset data_dir (Some (Dir entries))
  = Return (false,
            Some (join newline
                    [ "❌ Some classes have too few images (minimum: 3 per class):";
                      "   - " ++ small ++ ": 2 images (need 1 more)";
                      "❌ Insufficient total images: 7 (minimum: 20)";
                      "   Please add 13 more images" ]),
            Stats 2 7 (populated_classes entries)).
Proof.
  intros Hnd Hpop.
  unfold validate_dataset. rewrite (scan_classes_distinct _ Hnd).
  destruct Hpop as [-> | ->]; reflexivity.
Qed.

Lemma validate_dataset_two_findings_witness :
  validate_dataset "data" (Some (Dir Samples.small_dataset))
  = Return (false,
            Some (join newline
                    [ "❌ Some classes have too few images (minimum: 3 per class):";
                      "   - tinea_pedis: 2 images (need 1 more)";
                      "❌ Insufficient total images: 7 (minimum: 20)";
                      "   Please add 13 more images" ]),
            Stats 2 7 [("tinea_pedis", 2); ("candidiasis", 5)]).
Proof.
  apply (validate_dataset_two_findings "data" Samples.small_dataset
           "tinea_pedis" "candidiasis").
  - unfold distinct_names; simpl.
    repeat constructor; simpl; intuition discriminate.
  - left; vm_compute; reflexivity.
Defined.

End ValidateFacts.

(** ** The training run *)

Module TrainFacts.
Import Py Train.

Lemma set_trainable_length (flag : bool) (layers : list bool) :
  List.length (set_trainable flag layers) = List.length layers.
Proof. apply length_map. Qed.

Lemma set_trainable_nth (flag : bool) (layers : list bool) (i : nat) :
  i < List.length layers ->
  nth_error (set_trainable flag layers) i = Some flag.
Proof.
  intros Hi. unfold set_trainable. rewrite nth_error_map.
  destruct (nth_error layers i) eqn:E; [reflexivity|].
  apply nth_error_None in E. lia.
Qed.

Lemma freeze_first_length (n : nat) (layers : list bool) :
  List.length (freeze_first n layers) = List.length layers.
Proof.
  unfold freeze_first.
  rewrite length_app, length_map, length_firstn, length_skipn. lia.
Qed.

(** Below the cut a layer is frozen; from the cut on it keeps its flag. *)
Lemma freeze_first_nth (n : nat) (layers : list bool) (i : nat) :
  i < List.length layers ->
  nth_error (freeze_first n layers) i
  = if (i <? n)%nat then Some false else nth_error layers i.
Proof.
  intros Hi. unfold freeze_first.
  destruct (Nat.ltb_spec i n) as [Hlt|Hge].
  - rewrite nth_error_app1 by (rewrite length_map, length_firstn; lia).
    rewrite nth_error_map.
    destruct (nth_error (firstn n layers) i) eqn:E; [reflexivity|].
    apply nth_error_None in E. rewrite length_firstn in E. lia.
  - assert (Hlen : List.length (map (fun _ : bool => false) (firstn n layers)) = n)
      by (rewrite length_map, length_firstn; lia).
    rewrite nth_error_app2 by lia.
    rewrite Hlen, nth_error_skipn. f_equal. lia.
Qed.

Lemma build_model_depth (depth num_classes : nat) :
  List.length (backbone (build_model depth num_classes)) = depth.
Proof.
  unfold build_model; simpl.
  now rewrite set_trainable_length, repeat_length.
Qed.

(** The layer flags and the optimizer after the phase-2 setup. *)
Lemma fine_tune_setup_layers (m : keras_model) :
  List.length (backbone (fine_tune_setup m)) = List.length (backbone m) /\
  (forall i, i < List.length (backbone m) ->
             nth_error (backbone (fine_tune_setup m)) i = Some (negb (i <? 100)%nat)) /\
  optimizer_lr (fine_tune_setup m) = Some Config.FINE_TUNE_LR /\
  num_outputs (fine_tune_setup m) = num_outputs m.
Proof.
  unfold fine_tune_setup, compile; simpl. repeat split.
  - now rewrite freeze_first_length, set_trainable_length.
  - intros i Hi.
    rewrite freeze_first_nth by now rewrite set_trainable_length.
    destruct (i <? 100)%nat; [reflexivity|].
    now apply set_trainable_nth.
Qed.

(** A rejection always comes with a message. *)
Lemma validate_dataset_rejection_has_message
    (data_dir : string) (root : option node) (msg : option string) (st : Validate.stats) :
  Validate.validate_dataset data_dir root = Return (false, msg, st) ->
  exists text, msg = Some text.
Proof.
  unfold Validate.validate_dataset.
  destruct root as [[content|entries]|]; intros H.
  - discriminate.
  - destruct (Validate.collect_errors data_dir (Validate.scan_classes entries []));
      inversion H; eauto.
  - inversion H; eauto.
Qed.

(** A recorded call that returns is followed by the rest of the run. *)
Lemma call_returns {A : Type} (e : event) (rest : list event * result A) :
  call e None rest = (e :: fst rest, snd rest).
Proof. reflexivity. Qed.

(** A recorded call is in the trace whatever its outcome. *)
Lemma call_head {A : Type} (e : event) (o : option exn) (rest : list event * result A) :
  fst (call e o rest) = e :: match o with Some _ => [] | None => fst rest end.
Proof. destruct o; reflexivity. Qed.

(** A run that returned went through each of its calls. *)
Lemma call_returned {A : Type} (e : event) (o : option exn)
    (rest : list event * result A) (a : A) :
  snd (call e o rest) = Return a -> o = None /\ snd rest = Return a.
Proof. destruct o; [discriminate|]. now split. Qed.

Lemma guard_returned {A : Type} (o : option exn)
    (rest : list event * result A) (a : A) :
  snd (guard o rest) = Return a -> o = None /\ rest = guard o rest /\ snd rest = Return a.
Proof. destruct o; [discriminate|]. now repeat split. Qed.

Section Run.
Variable image_verifies : string -> bool.
Variable backbone_depth : nat.
Variable lib : library.

(** C8.  When validation rejects the dataset, [train] raises
    [ValueError] with the validator's message and has done nothing
    else: no call to cleaning, generator construction, model building,
    fitting, plotting or saving is made, and the dataset tree is as it
    was. *)
Theorem train_aborts_before_compute
    (data_dir output_dir : string) (root : option node)
    (msg : option string) (st : Validate.stats) :
  Validate.validate_dataset data_dir root = Return (false, msg, st) ->
  (exists text, msg = Some text) /\
  Train.train image_verifies backbone_depth lib data_dir output_dir root
  = ([], root, Raise (ValueError msg)).
Proof.
  intros Hv. split.
  - eapply validate_dataset_rejection_has_message; eassumption.
  - unfold Train.train. now rewrite Hv.
Qed.

(** C9.  On an accepted dataset, when the calls that precede it return
    (the generators are built, the pretrained network loads, the output
    directory can be made and the first fit ends without an exception),
    the run goes on to a second fit, and the model handed to it is the
    first one after the phase-2 setup: of its backbone layers those at
    positions below 100 have [trainable] false, all later ones have
    [trainable] true, and it is compiled with learning rate 0.0001. *)
Theorem train_phase2_setup
    (data_dir output_dir : string) (root : option node)
    (msg : option string) (st : Validate.stats) :
  Validate.validate_dataset data_dir root = Return (true, msg, st) ->
  phase1_completes image_verifies backbone_depth lib data_dir output_dir root ->
  exists before m1 m2 path after,
    fst (fst (Train.train image_verifies backbone_depth lib data_dir output_dir root))
    = (before ++ [Fit m1 Config.EPOCHS path;
                  Fit m2 Config.FINE_TUNE_EPOCHS path] ++ after)%list /\
    m2 = fine_tune_setup m1 /\
    List.length (backbone m2) = backbone_depth /\
    (forall i, i < 100 -> i < backbone_depth ->
               nth_error (backbone m2) i = Some false) /\
    (forall i, 100 <= i -> i < backbone_depth ->
               nth_error (backbone m2) i = Some true) /\
    optimizer_lr m1 = Some (1 # 1000)%Q /\
    optimizer_lr m2 = Some (1 # 10000)%Q.
Proof.
  intros Hv. unfold phase1_completes, Train.train. rewrite Hv. simpl negb. cbv iota.
  destruct (Preprocess.remove_corrupted_images image_verifies data_dir root)
    as [removed root1].
  cbn [snd]. intros (Hflow & Hnet & Hdirs & Hfit).
  rewrite Hflow, Hnet, Hdirs, Hfit.
  set (n := List.length (class_indices root1)).
  set (m1 := compile Config.LEARNING_RATE (build_model backbone_depth n)).
  assert (Hlen : List.length (backbone m1) = backbone_depth)
    by apply build_model_depth.
  destruct (fine_tune_setup_layers m1) as (Hl & Hflags & Hlr & _).
  rewrite !call_returns. cbn [fst].
  exists [ RemoveCorruptedImages data_dir removed;
           CreateDataGenerators data_dir Config.BATCH_SIZE Config.VALIDATION_SPLIT;
           BuildModel n;
           GetCallbacks (path_join output_dir "fungal_classifier.keras") ].
  exists m1, (fine_tune_setup m1), (path_join output_dir "fungal_classifier.keras").
  assert (Hsecond : forall o (rest : list event * result keras_model),
             exists after,
               fst (call (Fit (fine_tune_setup m1) Config.FINE_TUNE_EPOCHS
                              (path_join output_dir "fungal_classifier.keras")) o rest)
               = Fit (fine_tune_setup m1) Config.FINE_TUNE_EPOCHS
                     (path_join output_dir "fungal_classifier.keras") :: after).
  { intros [x|] rest; eexists; reflexivity. }
  match goal with
  | |- exists _, _ :: _ :: _ :: _ :: _ :: fst (call _ ?o ?rest) = _ /\ _ =>
      destruct (Hsecond o rest) as [after Hafter]; rewrite Hafter
  end.
  exists after.
  split; [reflexivity|]. split; [reflexivity|]. split; [congruence|].
  split; [|split; [|split; [reflexivity|exact Hlr]]].
  - intros i Hi Hd. rewrite Hflags by lia.
    destruct (Nat.ltb_spec i 100); [reflexivity|lia].
  - intros i Hi Hd. rewrite Hflags by lia.
    destruct (Nat.ltb_spec i 100); [lia|reflexivity].
Qed.

End Run.

Lemma train_aborts_before_compute_witness :
  Train.train (fun _ => true) 154 Samples.working_library "data" "models"
    (Some (Dir Samples.small_dataset))
  = ([], Some (Dir Samples.small_dataset),
     Raise (ValueError (Some (join newline
                    [ "❌ Some classes have too few images (minimum: 3 per class):";
                      "   - tinea_pedis: 2 images (need 1 more)";
                      "❌ Insufficient total images: 7 (minimum: 20)";
                      "   Please add 13 more images" ])))).
Proof.
  refine (proj2 (train_aborts_before_compute (fun _ => true) 154 Samples.working_library
                   "data" "models"
                   (Some (Dir Samples.small_dataset)) _
                   (Validate.Stats 2 7 [("tinea_pedis", 2); ("candidiasis", 5)]) _)).
  vm_compute. reflexivity.
Defined.

Lemma train_phase2_setup_witness :
  exists before m1 m2 path after,
    fst (fst (Train.train (fun _ => true) 154 Samples.working_library "data" "models"
                (Some (Dir Samples.two_class_dataset))))
    = (before ++ [Fit m1 50 path; Fit m2 20 path] ++ after)%list /\
    m2 = fine_tune_setup m1 /\
    List.length (backbone m2) = 154 /\
    (forall i, i < 100 -> i < 154 -> nth_error (backbone m2) i = Some false) /\
    (forall i, 100 <= i -> i < 154 -> nth_error (backbone m2) i = Some true) /\
    optimizer_lr m1 = Some (1 # 1000)%Q /\
    optimizer_lr m2 = Some (1 # 10000)%Q.
Proof.
  apply (train_phase2_setup (fun _ => true) 154 Samples.working_library "data" "models"
           (Some (Dir Samples.two_class_dataset)) None
           (Validate.Stats 2 20 [("tinea_pedis", 10); ("candidiasis", 10)])).
  - vm_compute. reflexivity.
  - vm_compute. repeat split; reflexivity.
Defined.

End TrainFacts.

(** ** Cleaning of the dataset tree *)

Module CleaningFacts.
Import Py Preprocess.

Section Walk.
Variable image_verifies : string -> bool.

Local Abbreviation corrupt := (fun pc : string * string => negb (image_verifies (snd pc))).
Local Abbreviation sound := (fun pc : string * string => image_verifies (snd pc)).

Lemma walk_remove_dir (subdir : string) (es : list (string * node)) :
  walk_remove image_verifies subdir (Dir es)
  = ((corrupted_here image_verifies subdir es ++ fst (walk_below image_verifies subdir es))%list,
     Dir (snd (walk_below image_verifies subdir es))).
Proof. reflexivity. Qed.

Lemma files_under_dir (subdir : string) (es : list (string * node)) :
  files_under subdir (Dir es)
  = (files_here subdir es ++ files_below subdir es)%list.
Proof. reflexivity. Qed.

Lemma walk_below_file (subdir name content : string) (rest : list (string * node)) :
  walk_below image_verifies subdir ((name, File content) :: rest)
  = if image_verifies content
    then (fst (walk_below image_verifies subdir rest),
          (name, File content) :: snd (walk_below image_verifies subdir rest))
    else walk_below image_verifies subdir rest.
Proof.
  unfold walk_below, is_valid_image. now destruct (image_verifies content).
Qed.

Lemma walk_below_dir (subdir name : string) (sub rest : list (string * node)) :
  walk_below image_verifies subdir ((name, Dir sub) :: rest)
  = ((fst (walk_remove image_verifies (path_join subdir name) (Dir sub))
        ++ fst (walk_below image_verifies subdir rest))%list,
     (name, Dir (snd (walk_below image_verifies (path_join subdir name) sub)))
       :: snd (walk_below image_verifies subdir rest)).
Proof. reflexivity. Qed.

Lemma files_below_file (subdir name content : string) (rest : list (string * node)) :
  files_below subdir ((name, File content) :: rest) = files_below subdir rest.
Proof. reflexivity. Qed.

Lemma files_below_dir (subdir name : string) (sub rest : list (string * node)) :
  files_below subdir ((name, Dir sub) :: rest)
  = (files_under (path_join subdir name) (Dir sub) ++ files_below subdir rest)%list.
Proof. reflexivity. Qed.

Lemma corrupted_here_filter (subdir : string) (es : list (string * node)) :
  corrupted_here image_verifies subdir es
  = map fst (filter corrupt (files_here subdir es)).
Proof.
  unfold corrupted_here, files_here, is_valid_image.
  induction es as [|[name [content|sub]] rest IH]; simpl; [reflexivity| |exact IH].
  destruct (image_verifies content); simpl; now rewrite IH.
Qed.

Lemma files_here_kept (subdir : string) (es : list (string * node)) :
  files_here subdir (snd (walk_below image_verifies subdir es))
  = filter sound (files_here subdir es).
Proof.
  induction es as [|[name [content|sub]] rest IH]; [reflexivity| |].
  - rewrite walk_below_file. unfold files_here in *. cbn [flat_map snd fst app].
    destruct (image_verifies content) eqn:E; cbn [snd flat_map fst app filter];
      rewrite ?E; now rewrite IH.
  - rewrite walk_below_dir. exact IH.
Qed.

Lemma filter_app_map {A B : Type} (f : A -> bool) (g : A -> B) (l1 l2 : list A) :
  map g (filter f (l1 ++ l2)) = (map g (filter f l1) ++ map g (filter f l2))%list.
Proof. now rewrite filter_app, map_app. Qed.

(** The traversal removes exactly the files that fail verification and keeps
    the others where they are. *)
Lemma walk_remove_spec (n : node) :
  forall subdir,
    fst (walk_remove image_verifies subdir n)
    = map fst (filter corrupt (files_under subdir n)) /\
    files_under subdir (snd (walk_remove image_verifies subdir n))
    = filter sound (files_under subdir n).
Proof.
  induction n as [content|es IH] using node_induction; intros subdir.
  - split; reflexivity.
  - rewrite walk_remove_dir, files_under_dir. cbn [fst snd].
    rewrite files_under_dir, filter_app_map, filter_app, files_here_kept,
      <- corrupted_here_filter.
    assert (Hbelow :
      fst (walk_below image_verifies subdir es) = map fst (filter corrupt (files_below subdir es)) /\
      files_below subdir (snd (walk_below image_verifies subdir es))
      = filter sound (files_below subdir es)).
    { clear -IH. induction es as [|[name child] rest IHes]; [split; reflexivity|].
      inversion IH as [|? ? Hchild Hrest]; subst.
      specialize (IHes Hrest). destruct IHes as [IHr IHk].
      destruct child as [content|sub].
      - rewrite walk_below_file, files_below_file.
        destruct (image_verifies content); cbn [fst snd];
          rewrite ?files_below_file; split; assumption.
      - cbn [snd] in Hchild.
        destruct (Hchild (path_join subdir name)) as [Hr Hk].
        rewrite walk_remove_dir in Hk. cbn [snd] in Hk.
        rewrite walk_below_dir. cbn [fst snd]. rewrite !files_below_dir. split.
        + now rewrite filter_app_map, Hr, IHr.
        + now rewrite Hk, IHk, filter_app. }
    destruct Hbelow as [Hr Hk]. now rewrite Hr, Hk.
Qed.

(** C10.  [remove_corrupted_images] returns, in traversal order, the paths
    of exactly the files under the root whose bytes fail PIL verification,
    whatever their names or extensions, and afterwards the files under the
    root are exactly those that verify, each at its path with its bytes. *)
Theorem remove_corrupted_images_exact (root_path : string) (root : option node) :
  fst (remove_corrupted_images image_verifies root_path root)
  = map fst (filter corrupt (files_at root_path root)) /\
  files_at root_path (snd (remove_corrupted_images image_verifies root_path root))
  = filter sound (files_at root_path root).
Proof.
  destruct root as [[content|es]|]; try (split; reflexivity).
  exact (walk_remove_spec (Dir es) root_path).
Qed.

End Walk.

(** A text file that is not an image is removed like any other file that
    fails verification; the images that verify stay. *)
Example remove_corrupted_images_sidecar :
  remove_corrupted_images (fun bytes => String.eqb bytes "JFIF") "data"
    (Some (Dir [("candidiasis",
                 Dir [("a.jpg", File "JFIF"); ("labels.csv", File "id,label");
                      ("b.jpg", File "garbage")])]))
  = (["data/candidiasis/labels.csv"; "data/candidiasis/b.jpg"],
     Some (Dir [("candidiasis", Dir [("a.jpg", File "JFIF")])])).
Proof. reflexivity. Qed.

End CleaningFacts.

(** ** Export: labels and verification *)

Module ExportFacts.
Import Py Train ExportTflite.

Local Notation "a <=s b" := (String.leb a b = true) (at level 70).

Lemma leb_trans (a : string) :
  forall b c, a <=s b -> b <=s c -> a <=s c.
Proof.
  unfold String.leb.
  induction a as [|x a IH]; intros [|y b] [|z c]; simpl; try congruence; auto.
  unfold Ascii.compare.
  destruct (N.compare_spec (N_of_ascii x) (N_of_ascii y)) as [Exy|Lxy|Gxy];
    destruct (N.compare_spec (N_of_ascii y) (N_of_ascii z)) as [Eyz|Lyz|Gyz];
    destruct (N.compare_spec (N_of_ascii x) (N_of_ascii z)) as [Exz|Lxz|Gxz];
    try congruence; try lia; eauto.
Qed.

Lemma insert_sorted_perm (x : string) (l : list string) :
  Permutation (insert_sorted x l) (x :: l).
Proof.
  induction l as [|y l IH]; simpl; [reflexivity|].
  destruct (String.leb x y); [reflexivity|].
  rewrite IH. apply perm_swap.
Qed.

Lemma sorted_perm (l : list string) : Permutation (sorted l) l.
Proof.
  induction l as [|x l IH]; simpl; [reflexivity|].
  rewrite insert_sorted_perm. now constructor.
Qed.

Lemma insert_sorted_ordered (x : string) (l : list string) :
  StronglySorted (fun a b => a <=s b) l ->
  StronglySorted (fun a b => a <=s b) (insert_sorted x l).
Proof.
  induction 1 as [|y l Hl IH Hy]; simpl; [repeat constructor|].
  destruct (String.leb x y) eqn:E.
  - constructor; [now constructor|]. constructor; [exact E|].
    eapply Forall_impl; [|exact Hy]. intros z Hz. eapply leb_trans; eassumption.
  - constructor; [exact IH|].
    assert (Hyx : y <=s x) by (destruct (String.leb_total x y); congruence).
    rewrite Forall_forall. intros z Hz.
    apply (Permutation_in _ (insert_sorted_perm x l)) in Hz.
    destruct Hz as [<-|Hz]; [exact Hyx|].
    rewrite Forall_forall in Hy. now apply Hy.
Qed.

Lemma sorted_ordered (l : list string) :
  StronglySorted (fun a b => a <=s b) (sorted l).
Proof.
  induction l as [|x l IH]; simpl; [constructor|]. now apply insert_sorted_ordered.
Qed.

(** Two ordered lists with the same elements are the same list. *)
Lemma ordered_perm_unique (l1 : list string) :
  forall l2,
    StronglySorted (fun a b => a <=s b) l1 ->
    StronglySorted (fun a b => a <=s b) l2 ->
    Permutation l1 l2 -> l1 = l2.
Proof.
  induction l1 as [|x l1 IH]; intros l2 H1 H2 Hp.
  - now apply Permutation_nil in Hp.
  - destruct l2 as [|y l2]; [now apply Permutation_sym, Permutation_nil in Hp|].
    inversion H1 as [|? ? H1' Hx]; inversion H2 as [|? ? H2' Hy]; subst.
    rewrite Forall_forall in Hx, Hy.
    assert (Hxy : x = y).
    { assert (In x (y :: l2)) as [->|Hin] by (eapply Permutation_in; [exact Hp|now left]);
        [reflexivity|].
      assert (In y (x :: l1)) as [->|Hin'] by
          (eapply Permutation_in; [apply Permutation_sym; exact Hp|now left]);
        [reflexivity|].
      apply String.leb_antisym; auto. }
    subst y. f_equal. apply IH; auto. eapply Permutation_cons_inv; eassumption.
Qed.

Lemma class_names_ordered :
  StronglySorted (fun a b => a <=s b) Config.CLASS_NAMES.
Proof. repeat constructor. Qed.

(** The generator's index order is [CLASS_NAMES] exactly when the
    sub-directories of the training directory are the four class names. *)
Lemma class_indices_class_names (entries : list (string * node)) :
  class_indices (Some (Dir entries)) = Config.CLASS_NAMES
  <-> Permutation (subdirs entries) Config.CLASS_NAMES.
Proof.
  simpl. split.
  - intros <-. apply Permutation_sym, sorted_perm.
  - intros Hp. apply ordered_perm_unique.
    + apply sorted_ordered.
    + apply class_names_ordered.
    + now rewrite sorted_perm.
Qed.

(** The label file read back line by line is [CLASS_NAMES]. *)
Lemma labels_lines :
  lines (labels_text Config.CLASS_NAMES) = Config.CLASS_NAMES.
Proof. reflexivity. Qed.

(** C2, as the code has it.  The label file holds one line per entry of
    [CLASS_NAMES], four in all, in the order of that list, whatever was
    trained; this is the index order of the model's final layer exactly when
    the sub-directories of the training directory are the four class names
    of [CLASS_NAMES]. *)
Theorem labels_file_follows_class_names (output_dir : string) :
  fst (create_labels_file output_dir) = path_join output_dir "labels.txt" /\
  lines (snd (create_labels_file output_dir)) = Config.CLASS_NAMES /\
  List.length (lines (snd (create_labels_file output_dir))) = 4 /\
  forall entries : list (string * node),
    class_indices (Some (Dir entries)) = lines (snd (create_labels_file output_dir))
    <-> Permutation (subdirs entries) Config.CLASS_NAMES.
Proof.
  unfold create_labels_file; cbn [fst snd]. rewrite labels_lines.
  repeat split; try reflexivity; apply class_indices_class_names.
Qed.

(** C2 fails as stated: a run on two class directories of ten images each,
    in which every library call returns, is accepted and returns a model
    with two outputs, indexed
    [candidiasis], [tinea_pedis], while the label file has four lines whose
    second is [tinea_corporis]. *)
Lemma labels_file_mismatch :
  exists m,
    snd (Train.train (fun _ => true) 154 Samples.working_library "data" "models"
           (Some (Dir Samples.two_class_dataset))) = Return m /\
    num_outputs m = 2 /\
    class_indices (Some (Dir Samples.two_class_dataset))
    = ["candidiasis"; "tinea_pedis"] /\
    lines (snd (create_labels_file "models"))
    = ["candidiasis"; "tinea_corporis"; "tinea_pedis"; "tinea_versicolor"] /\
    Nat.eqb (List.length (lines (snd (create_labels_file "models")))) (num_outputs m)
    = false.
Proof.
  eexists. split; [vm_compute; reflexivity|]. repeat split.
Qed.

(** A run that raised is not continued. *)
Lemma bind_raise {A B : Type} (m : run A) (f : A -> run B) (e : exn) :
  snd m = Raise e -> bind m f = (fst m, Raise e).
Proof. intros H. unfold bind. now rewrite H. Qed.


Section Conversion.
Variable lib : library.

(** The quantized conversion never returns: the model fails to load, or
    the converter refuses the int8 target. *)
Lemma convert_to_tflite_quantized (keras_model_path output_path : string) :
  convert_to_tflite lib keras_model_path output_path true
  = ([ConvertToTflite keras_model_path output_path true],
     Raise match load_model lib keras_model_path with
           | Some e => e
           | None => int8_refusal lib
           end).
Proof.
  unfold convert_to_tflite, bind, emit, check, lift, ret. cbn [fst snd].
  destruct (load_model lib keras_model_path); reflexivity.
Qed.


End Conversion.

Section Verification.
Variable load_interpreter : string -> result interpreter.
Variable randn : list nat -> Preprocess.tensor.
Variable lib : library.


End Verification.


End ExportFacts.

(** ** Inference preprocessing *)

Module InferenceFacts.
Import Py Preprocess.

Lemma expand_dims0_range (lo hi : Q) (t : tensor) :
  in_range lo hi t -> in_range lo hi (expand_dims0 t).
Proof. exact (fun H => H). Qed.

(** The scaling sends the 8-bit range onto [[-1, 1]]. *)
Lemma preprocess_input_range (t : tensor) :
  in_range 0 255 t -> in_range (-1) 1 (preprocess_input t).
Proof.
  unfold in_range, preprocess_input; simpl. intros H.
  apply Forall_map. eapply Forall_impl; [|exact H].
  intros [a b] [Hlo Hhi]. unfold Qle in *; simpl in *. lia.
Qed.

Lemma preprocess_input_shape (t : tensor) :
  shape (preprocess_input t) = shape t.
Proof. reflexivity. Qed.

Lemma zeros_range (sh : list nat) : in_range 0 255 (Samples.zeros sh).
Proof.
  unfold in_range, Samples.zeros; simpl.
  apply Forall_forall. intros x Hx. apply repeat_spec in Hx. subst x.
  split; unfold Qle; simpl; lia.
Qed.

(** The stand-in back end meets the documented contract. *)
Lemma black_backend_contract :
  backend_contract Preprocess.tensor Samples.black_load_img
    Samples.black_img_to_array Samples.black_decode_image Samples.black_resize.
Proof.
  constructor.
  - intros p h w img H. inversion H; subst. reflexivity.
  - intros p sz img H. inversion H; subst. apply zeros_range.
  - intros b t H. unfold Samples.black_decode_image in H.
    destruct (String.eqb b ""); [discriminate|].
    destruct (startswith "GIF8" b); inversion H; subst; simpl; eauto.
  - intros b t H. unfold Samples.black_decode_image in H.
    destruct (String.eqb b ""); [discriminate|].
    destruct (startswith "GIF8" b); inversion H; subst; apply zeros_range.
  - intros t h w c th tw H Hth Htw. unfold Samples.black_resize. cbn [fst snd].
    destruct th; [lia|]. destruct tw; [lia|]. rewrite H. cbn [Nat.eqb orb].
    eexists. split; reflexivity.
  - intros t n h w c th tw H Hth Htw. unfold Samples.black_resize. cbn [fst snd].
    destruct th; [lia|]. destruct tw; [lia|]. rewrite H. cbn [Nat.eqb orb].
    eexists. split; reflexivity.
  - intros t sz t' H _. unfold Samples.black_resize in H.
    destruct ((fst sz =? 0) || (snd sz =? 0))%nat; [discriminate|].
    destruct (shape t) as [|? [|? [|? [|? [|? ?]]]]]; inversion H; subst;
      apply zeros_range.
  - intros t th tw H. unfold Samples.black_resize. cbn [fst snd].
    assert (E : ((th =? 0) || (tw =? 0))%nat = true).
    { destruct H as [-> | ->]; [reflexivity|apply orb_true_r]. }
    rewrite E. eexists. reflexivity.
Qed.

Section Inference.
Variable pil_image : Type.
Variable load_img : string -> nat * nat -> result pil_image.
Variable img_to_array : pil_image -> tensor.
Variable decode_image : string -> nat -> result tensor.
Variable resize : tensor -> nat * nat -> result tensor.
Hypothesis contract :
  backend_contract pil_image load_img img_to_array decode_image resize.

(** The path route: whenever the file loads, the result is one 224 x 224
    RGB image scaled into [[-1, 1]]. *)
Lemma preprocess_image_tensor (image_path : string) :
  match preprocess_image pil_image load_img img_to_array image_path Config.IMG_SIZE with
  | Return t => shape t = [1; 224; 224; 3] /\ in_range (-1) 1 t
  | Raise e => load_img image_path Config.IMG_SIZE = Raise e
  end.
Proof.
  unfold preprocess_image.
  destruct (load_img image_path Config.IMG_SIZE) as [img|e'] eqn:E; [|reflexivity].
  split.
  - unfold Config.IMG_SIZE in *. simpl.
    now rewrite (load_img_shape _ _ _ _ _ contract _ _ _ _ E).
  - apply expand_dims0_range, preprocess_input_range.
    exact (load_img_range _ _ _ _ _ contract _ _ _ E).
Qed.

(** The bytes route at a positive target size, on a rank-3 and on a
    rank-4 decoded array. *)
Lemma preprocess_image_bytes_rank3
    (image_bytes : string) (img : tensor) (h w th tw : nat) :
  decode_image image_bytes 3 = Return img ->
  shape img = [h; w; 3] -> 0 < th -> 0 < tw ->
  exists t,
    preprocess_image_bytes decode_image resize image_bytes (th, tw) = Return t /\
    shape t = [1; th; tw; 3] /\ in_range (-1) 1 t.
Proof.
  intros Hd Hs Hth Htw. unfold preprocess_image_bytes. rewrite Hd.
  destruct (resize_shape3 _ _ _ _ _ contract _ _ _ _ th tw Hs Hth Htw)
    as (t' & Hr & Hshape).
  rewrite Hr. eexists; split; [reflexivity|]. split.
  - simpl. now rewrite Hshape.
  - apply expand_dims0_range, preprocess_input_range.
    apply (resize_range _ _ _ _ _ contract _ _ _ Hr).
    exact (decode_image_range _ _ _ _ _ contract _ _ Hd).
Qed.

Lemma preprocess_image_bytes_rank4
    (image_bytes : string) (img : tensor) (frames h w th tw : nat) :
  decode_image image_bytes 3 = Return img ->
  shape img = [frames; h; w; 3] -> 0 < th -> 0 < tw ->
  exists t,
    preprocess_image_bytes decode_image resize image_bytes (th, tw) = Return t /\
    shape t = [1; frames; th; tw; 3] /\ in_range (-1) 1 t.
Proof.
  intros Hd Hs Hth Htw. unfold preprocess_image_bytes. rewrite Hd.
  destruct (resize_shape4 _ _ _ _ _ contract _ _ _ _ _ th tw Hs Hth Htw)
    as (t' & Hr & Hshape).
  rewrite Hr. eexists; split; [reflexivity|]. split.
  - simpl. now rewrite Hshape.
  - apply expand_dims0_range, preprocess_input_range.
    apply (resize_range _ _ _ _ _ contract _ _ _ Hr).
    exact (decode_image_range _ _ _ _ _ contract _ _ Hd).
Qed.

(** The bytes route on a buffer that decodes to a single still image. *)
Lemma preprocess_image_bytes_still
    (image_bytes : string) (img : tensor) (h w : nat) :
  decode_image image_bytes 3 = Return img ->
  shape img = [h; w; 3] ->
  exists t,
    preprocess_image_bytes decode_image resize image_bytes Config.IMG_SIZE = Return t /\
    shape t = [1; 224; 224; 3] /\ in_range (-1) 1 t.
Proof.
  intros Hd Hs. unfold Config.IMG_SIZE.
  apply (preprocess_image_bytes_rank3 image_bytes img h w 224 224 Hd Hs); lia.
Qed.

(** C4 at a GIF buffer.  When the decoder returns the frames of a GIF, a
    rank-4 array, [preprocess_image_bytes] returns a rank-5 tensor of shape
    (1, frames, 224, 224, 3): its values lie in [[-1, 1]] but its shape is
    not (1, 224, 224, 3). *)
Theorem preprocess_image_bytes_gif
    (image_bytes : string) (img : tensor) (frames h w : nat) :
  decode_image image_bytes 3 = Return img ->
  shape img = [frames; h; w; 3] ->
  exists t,
    preprocess_image_bytes decode_image resize image_bytes Config.IMG_SIZE = Return t /\
    shape t = [1; frames; 224; 224; 3] /\
    shape t <> [1; 224; 224; 3] /\
    in_range (-1) 1 t.
Proof.
  intros Hd Hs. unfold Config.IMG_SIZE.
  destruct (preprocess_image_bytes_rank4 image_bytes img frames h w 224 224 Hd Hs)
    as (t & Ht & Hshape & Hrange); [lia|lia|].
  exists t. split; [exact Ht|]. split; [exact Hshape|]. split; [|exact Hrange].
  rewrite Hshape. discriminate.
Qed.

(** C1 at a GIF file.  When the same GIF loads on the path route and
    decodes, as a rank-4 array of frames, on the bytes route, both routes
    return a tensor, the first of shape (1, 224, 224, 3) and the second of
    shape (1, frames, 224, 224, 3): the two agree within no tolerance. *)
Theorem preprocess_routes_differ_at_gif
    (image_path image_bytes : string) (loaded : pil_image) (decoded : tensor)
    (frames h w : nat) :
  load_img image_path Config.IMG_SIZE = Return loaded ->
  decode_image image_bytes 3 = Return decoded ->
  shape decoded = [frames; h; w; 3] ->
  exists t1 t2,
    preprocess_image pil_image load_img img_to_array image_path Config.IMG_SIZE
    = Return t1 /\
    preprocess_image_bytes decode_image resize image_bytes Config.IMG_SIZE
    = Return t2 /\
    shape t1 = [1; 224; 224; 3] /\
    shape t2 = [1; frames; 224; 224; 3] /\
    forall tol, ~ close tol t1 t2.
Proof.
  intros Hl Hd Hs.
  pose proof (preprocess_image_tensor image_path) as H1.
  destruct (preprocess_image pil_image load_img img_to_array image_path Config.IMG_SIZE)
    as [t1|e] eqn:E1; [|congruence].
  destruct H1 as [Hshape1 _].
  unfold Config.IMG_SIZE in *.
  destruct (preprocess_image_bytes_rank4 image_bytes decoded frames h w 224 224 Hd Hs)
    as (t2 & Ht2 & Hshape2 & _); [lia|lia|].
  exists t1, t2. repeat split; try assumption.
  intros tol [Hsame _]. rewrite Hshape1, Hshape2 in Hsame. discriminate.
Qed.

End Inference.

Lemma preprocess_image_bytes_gif_witness :
  exists t,
    preprocess_image_bytes Samples.black_decode_image Samples.black_resize
      "GIF89a" Config.IMG_SIZE = Return t /\
    shape t = [1; 1; 224; 224; 3] /\
    shape t <> [1; 224; 224; 3] /\
    in_range (-1) 1 t.
Proof.
  apply (preprocess_image_bytes_gif _ _ _ _ _ black_backend_contract
           "GIF89a" (Samples.zeros [1; 2; 2; 3]) 1 2 2); reflexivity.
Defined.

Lemma preprocess_routes_differ_at_gif_witness :
  exists t1 t2,
    preprocess_image tensor Samples.black_load_img Samples.black_img_to_array
      "spot.gif" Config.IMG_SIZE = Return t1 /\
    preprocess_image_bytes Samples.black_decode_image Samples.black_resize
      "GIF89a" Config.IMG_SIZE = Return t2 /\
    shape t1 = [1; 224; 224; 3] /\
    shape t2 = [1; 1; 224; 224; 3] /\
    forall tol, ~ close tol t1 t2.
Proof.
  apply (preprocess_routes_differ_at_gif _ _ _ _ _ black_backend_contract
           "spot.gif" "GIF89a" (Samples.zeros [224; 224; 3])
           (Samples.zeros [1; 2; 2; 3]) 1 2 2); reflexivity.
Defined.

End InferenceFacts.

(** ** More on dataset validation *)

Module ValidateMore.
Import Py Validate.

Lemma dict_set_keys {V : Type} (d : dict V) (k : string) (v : V) :
  keys (dict_set d k v) = if str_in k (keys d) then keys d else (keys d ++ [k])%list.
Proof.
  unfold str_in.
  induction d as [|[k' v'] d IH]; simpl; [reflexivity|].
  rewrite (String.eqb_sym k k').
  destruct (String.eqb_spec k' k) as [->|Hne]; simpl; [reflexivity|].
  rewrite IH. now destruct (existsb (String.eqb k) (keys d)).
Qed.

Lemma str_in_spec (x : string) (xs : list string) :
  str_in x xs = true <-> In x xs.
Proof.
  unfold str_in. rewrite existsb_exists. split.
  - intros (y & Hy & E). apply String.eqb_eq in E. now subst.
  - intros H. exists x. split; [exact H|apply String.eqb_refl].
Qed.

Lemma dict_set_nodup {V : Type} (d : dict V) (k : string) (v : V) :
  NoDup (keys d) -> NoDup (keys (dict_set d k v)).
Proof.
  intros Hnd. rewrite dict_set_keys.
  destruct (str_in k (keys d)) eqn:E; [exact Hnd|].
  apply NoDup_app; [exact Hnd|repeat constructor; intros []|].
  intros x Hx [<-|[]]. apply str_in_spec in Hx. congruence.
Qed.

Lemma dict_set_in {V : Type} (d : dict V) (k : string) (v : V) (kv : string * V) :
  In kv (dict_set d k v) -> kv = (k, v) \/ In kv d.
Proof.
  induction d as [|[k' v'] d IH]; simpl.
  - intros [<-|[]]; now left.
  - destruct (String.eqb_spec k' k) as [->|Hne]; simpl.
    + intros [<-|H]; [now left|now right; right].
    + intros [<-|H]; [now right; left|].
      destruct (IH H); [now left|now right; right].
Qed.

Lemma scan_classes_scanned (all : list (string * node)) (entries : list (string * node)) :
  forall acc,
    (forall e, In e entries -> In e all) ->
    ValidateSpec.scanned all acc -> ValidateSpec.scanned all (scan_classes entries acc).
Proof.
  induction entries as [|[name child] rest IH]; intros acc Hsub Hacc; simpl;
    [exact Hacc|].
  assert (Hrest : forall e, In e rest -> In e all) by (intros e He; apply Hsub; now right).
  destruct child as [content|files]; [now apply IH|].
  destruct (startswith "." name) eqn:Ehid; simpl; [now apply IH|].
  destruct (Nat.ltb_spec 0 (count_images files)) as [Hpos|_]; [|now apply IH].
  apply IH; [exact Hrest|].
  destruct Hacc as [Hnd Hall]. split; [now apply dict_set_nodup|].
  rewrite Forall_forall in *. intros kv Hkv.
  apply dict_set_in in Hkv. destruct Hkv as [->|Hkv]; [|now apply Hall].
  simpl. repeat split; [lia|exact Ehid|].
  exists files. split; [apply Hsub; now left|reflexivity].
Qed.

(** The error list is empty exactly under the three thresholds. *)
Lemma collect_errors_nil (data_dir : string) (cc : dict nat) :
  collect_errors data_dir cc = [] <->
  2 <= List.length cc /\ Forall (fun kv => 3 <= snd kv) cc /\ 20 <= sum (values cc).
Proof.
  unfold collect_errors, class_errors, per_class_errors, total_errors.
  unfold MIN_CLASSES, MIN_TOTAL_IMAGES.
  destruct (Nat.eqb_spec (List.length cc) 0) as [H0|H0].
  { split; [discriminate|lia]. }
  destruct (Nat.ltb_spec (List.length cc) 2) as [H2|H2].
  { split; [discriminate|lia]. }
  destruct (Nat.leb_spec 2 (List.length cc)) as [_|?]; [|lia].
  rewrite !andb_true_r. cbn [app].
  destruct (Nat.eqb_spec (List.length (insufficient_classes cc)) 0) as [Hins|Hins];
    cbn [negb].
  - assert (Hall : Forall (fun kv => 3 <= snd kv) cc).
    { apply length_zero_iff_nil in Hins. unfold insufficient_classes in Hins.
      rewrite Forall_forall. intros kv Hkv.
      destruct (Nat.ltb_spec (snd kv) MIN_IMAGES_PER_CLASS) as [Hlt|Hge];
        [|exact Hge].
      assert (Hin : In kv (filter (fun kv => (snd kv <? MIN_IMAGES_PER_CLASS)%nat) cc)).
      { apply filter_In. split; [exact Hkv|]. now apply Nat.ltb_lt. }
      rewrite Hins in Hin. destruct Hin. }
    destruct (Nat.ltb_spec (sum (values cc)) 20) as [Ht|Ht]; cbn [app].
    + split; [discriminate|lia].
    + split; [intros _; repeat split; assumption|reflexivity].
  - split; [discriminate|].
    intros (_ & Hall & _). exfalso. apply Hins.
    now rewrite (ValidateFacts.insufficient_none cc Hall).
Qed.

(** X1.  For every directory listing the verdict can be read off the
    returned statistics: the dataset is valid exactly when there are at
    least 2 classes, every class has at least 3 images and the total is at
    least 20; and a message is returned exactly when it is not valid. *)
Theorem validate_dataset_verdict (data_dir : string) (entries : list (string * node)) :
  exists b msg cc,
    validate_dataset data_dir (Some (Dir entries))
    = Return (b, msg, Stats (List.length cc) (sum (values cc)) cc) /\
    (b = true <->
     2 <= List.length cc /\ Forall (fun kv => 3 <= snd kv) cc /\ 20 <= sum (values cc)) /\
    (b = true <-> msg = None).
Proof.
  unfold validate_dataset.
  set (cc := scan_classes entries []).
  pose proof (collect_errors_nil data_dir cc) as Hnil.
  destruct (collect_errors data_dir cc) as [|e errs].
  - exists true, None, cc. split; [reflexivity|].
    split; (split; [intros _|reflexivity]); [now apply Hnil|reflexivity].
  - exists false, (Some (join newline (e :: errs))), cc. split; [reflexivity|].
    split; (split; [discriminate|]); [|discriminate].
    intros H. apply Hnil in H. discriminate.
Qed.

(** X2.  The returned statistics are well formed for every listing, with
    or without repeated or hidden names: class names are pairwise distinct
    and none starts with a dot, every count is at least 1 and is the image
    count of a directory of that name in the listing. *)
Theorem validate_dataset_stats_wellformed
    (data_dir : string) (entries : list (string * node)) :
  exists b msg cc,
    validate_dataset data_dir (Some (Dir entries))
    = Return (b, msg, Stats (List.length cc) (sum (values cc)) cc) /\
    NoDup (keys cc) /\
    Forall (fun kv =>
              1 <= snd kv /\
              startswith "." (fst kv) = false /\
              exists files, In (fst kv, Dir files) entries /\
                            snd kv = count_images files) cc.
Proof.
  assert (Hs : ValidateSpec.scanned entries (scan_classes entries [])).
  { apply scan_classes_scanned; [auto|]. split; constructor. }
  unfold validate_dataset.
  destruct (collect_errors data_dir (scan_classes entries [])) as [|e errs];
    do 3 eexists; (split; [reflexivity|exact Hs]).
Qed.

Lemma scan_classes_unpopulated (entries : list (string * node)) :
  forall acc, populated_classes entries = [] -> scan_classes entries acc = acc.
Proof.
  induction entries as [|[name child] rest IH]; intros acc Hpop; [reflexivity|].
  simpl in *. destruct child as [content|files]; simpl in Hpop; [now apply IH|].
  destruct (startswith "." name); simpl in *; [now apply IH|].
  destruct (0 <? count_images files)%nat; simpl in *; [discriminate|now apply IH].
Qed.

(** X3.  When no class directory holds an image -- the root is empty, or
    holds only files, hidden directories, empty directories or directories
    without image files -- the result is invalid with the seven lines of the
    no-images message and nothing else: the shortfall of the total is not
    reported although the total is 0. *)
Theorem validate_dataset_no_images (data_dir : string) (entries : list (string * node)) :
  populated_classes entries = [] ->
  validate_dataset data_dir (Some (Dir entries))
  = Return (false,
            Some (join newline
                    [ "❌ No training images found in " ++ data_dir;
                      "   Please upload images organized in class folders:";
                      "   data/training_images/";
                      "   ├── candidiasis/";
                      "   ├── tinea_corporis/";
                      "   ├── tinea_pedis/";
                      "   └── tinea_versicolor/" ]),
            Stats 0 0 []).
Proof.
  intros Hpop. unfold validate_dataset.
  now rewrite (scan_classes_unpopulated entries [] Hpop).
Qed.

Lemma validate_dataset_no_images_witness :
  validate_dataset "data"
    (Some (Dir [ ("README.md", File "hello");
                 (".git", Dir (Samples.images 3));
                 ("empty", Dir []);
                 ("docs", Dir [("notes.txt", File "x"); (".jpg", File "y")]) ]))
  = Return (false,
            Some (join newline
                    [ "❌ No training images found in data";
                      "   Please upload images organized in class folders:";
                      "   data/training_images/";
                      "   ├── candidiasis/";
                      "   ├── tinea_corporis/";
                      "   ├── tinea_pedis/";
                      "   └── tinea_versicolor/" ]),
            Stats 0 0 []).
Proof.
  apply (validate_dataset_no_images "data"). reflexivity.
Defined.

Lemma retouch_entries_cons (f : string -> string) (name : string) (child : node)
    (rest : list (string * node)) :
  Tree.retouch_entries f ((name, child) :: rest)
  = (name, Tree.retouch f child) :: Tree.retouch_entries f rest.
Proof. reflexivity. Qed.

Lemma is_image_entry_retouch (f : string -> string) (name : string) (child : node) :
  is_image_entry (name, Tree.retouch f child) = is_image_entry (name, child).
Proof. now destruct child. Qed.

Lemma count_images_retouch (f : string -> string) (files : list (string * node)) :
  count_images (Tree.retouch_entries f files) = count_images files.
Proof.
  unfold count_images.
  induction files as [|[name child] rest IH]; [reflexivity|].
  rewrite retouch_entries_cons. cbn [filter].
  rewrite is_image_entry_retouch.
  destruct (is_image_entry (name, child)); cbn [List.length]; now rewrite IH.
Qed.

Lemma scan_classes_retouch (f : string -> string) (entries : list (string * node)) :
  forall acc,
    scan_classes (Tree.retouch_entries f entries) acc = scan_classes entries acc.
Proof.
  induction entries as [|[name child] rest IH]; intros acc; [reflexivity|].
  rewrite retouch_entries_cons.
  destruct child as [content|files]; [exact (IH acc)|].
  change (Tree.retouch f (Dir files)) with (Dir (Tree.retouch_entries f files)).
  cbn [scan_classes]. rewrite count_images_retouch.
  destruct (negb (startswith "." name)); [|apply IH].
  destruct (0 <? count_images files)%nat; apply IH.
Qed.

(** X4.  Validation reads names only: replacing the bytes of any files of
    the tree, corrupt or not, leaves the whole result -- verdict, message
    and statistics -- unchanged. *)
Theorem validate_dataset_ignores_bytes
    (f : string -> string) (data_dir : string) (root : node) :
  validate_dataset data_dir (Some (Tree.retouch f root))
  = validate_dataset data_dir (Some root).
Proof.
  destruct root as [content|entries]; [reflexivity|].
  change (Tree.retouch f (Dir entries)) with (Dir (Tree.retouch_entries f entries)).
  unfold validate_dataset. now rewrite scan_classes_retouch.
Qed.

End ValidateMore.

(** ** More on cleaning *)

Module CleaningMore.
Import Py Preprocess CleaningFacts.

Section Walk.
Variable image_verifies : string -> bool.

Local Abbreviation corrupt := (fun pc : string * string => negb (image_verifies (snd pc))).
Local Abbreviation sound := (fun pc : string * string => image_verifies (snd pc)).
Local Abbreviation verified :=
  (fun pc : string * string => image_verifies (snd pc) = true).

Lemma files_here_cons_file (subdir name content : string) (rest : list (string * node)) :
  files_here subdir ((name, File content) :: rest)
  = (path_join subdir name, content) :: files_here subdir rest.
Proof. reflexivity. Qed.

Lemma files_here_cons_dir (subdir name : string) (sub rest : list (string * node)) :
  files_here subdir ((name, Dir sub) :: rest) = files_here subdir rest.
Proof. reflexivity. Qed.

(** Where every file verifies the inner loop keeps the entries as they
    are. *)
Lemma walk_below_sound (subdir : string) (es : list (string * node)) :
  Forall (fun e => forall p,
            Forall verified (files_under p (snd e)) ->
            walk_remove image_verifies p (snd e) = ([], snd e)) es ->
  Forall verified (files_here subdir es) ->
  Forall verified (files_below subdir es) ->
  walk_below image_verifies subdir es = ([], es).
Proof.
  induction es as [|[name child] rest IH]; intros Hch Hhere Hbelow; [reflexivity|].
  inversion Hch as [|? ? Hchild Hrest]; subst. cbn [snd] in Hchild.
  destruct child as [content|sub].
  - rewrite files_here_cons_file in Hhere. inversion Hhere as [|? ? Hc Hh]; subst.
    rewrite files_below_file in Hbelow. cbn [snd] in Hc.
    rewrite walk_below_file, Hc, (IH Hrest Hh Hbelow). reflexivity.
  - rewrite files_here_cons_dir in Hhere. rewrite files_below_dir in Hbelow.
    apply Forall_app in Hbelow. destruct Hbelow as [Hsub Hb].
    specialize (Hchild (path_join subdir name) Hsub).
    assert (Hk : snd (walk_below image_verifies (path_join subdir name) sub) = sub).
    { pose proof Hchild as H. rewrite walk_remove_dir in H.
      injection H as _ Hk. exact Hk. }
    rewrite walk_below_dir, Hchild, Hk, (IH Hrest Hhere Hb). reflexivity.
Qed.

Lemma corrupted_here_sound (subdir : string) (es : list (string * node)) :
  Forall verified (files_here subdir es) ->
  corrupted_here image_verifies subdir es = [].
Proof.
  rewrite corrupted_here_filter. intros H.
  induction H as [|pc l Hpc _ IH]; [reflexivity|].
  cbn [filter]. simpl in Hpc. now rewrite Hpc.
Qed.

(** On a tree all of whose files verify the traversal removes nothing and
    returns the tree itself. *)
Lemma walk_remove_sound (n : node) :
  forall subdir,
    Forall verified (files_under subdir n) ->
    walk_remove image_verifies subdir n = ([], n).
Proof.
  induction n as [content|es IH] using node_induction; intros subdir Hall;
    [reflexivity|].
  rewrite files_under_dir in Hall. apply Forall_app in Hall.
  destruct Hall as [Hhere Hbelow].
  rewrite walk_remove_dir, (corrupted_here_sound _ _ Hhere),
    (walk_below_sound subdir es IH Hhere Hbelow).
  reflexivity.
Qed.

Lemma filter_sound_all (l : list (string * string)) :
  Forall verified (filter sound l).
Proof.
  apply Forall_forall. intros x Hx. now apply filter_In in Hx.
Qed.

(** X5.  Cleaning is idempotent: a second [remove_corrupted_images] on the
    tree the first one left removes nothing and leaves that tree as it
    is. *)
Theorem remove_corrupted_images_idempotent (root_path : string) (root : option node) :
  remove_corrupted_images image_verifies root_path
    (snd (remove_corrupted_images image_verifies root_path root))
  = ([], snd (remove_corrupted_images image_verifies root_path root)).
Proof.
  destruct root as [[content|es]|]; try reflexivity.
  unfold remove_corrupted_images at 2 3. cbn [snd].
  destruct (walk_remove_spec image_verifies (Dir es) root_path) as [_ Hk].
  rewrite walk_remove_dir in *. cbn [snd] in *.
  unfold remove_corrupted_images.
  rewrite walk_remove_sound; [reflexivity|].
  rewrite Hk. apply filter_sound_all.
Qed.

Lemma dirs_under_dir (subdir : string) (es : list (string * node)) :
  Tree.dirs_under subdir (Dir es) = Tree.dirs_below subdir es.
Proof. reflexivity. Qed.

Lemma dirs_below_file (subdir name content : string) (rest : list (string * node)) :
  Tree.dirs_below subdir ((name, File content) :: rest) = Tree.dirs_below subdir rest.
Proof. reflexivity. Qed.

Lemma dirs_below_dir (subdir name : string) (sub rest : list (string * node)) :
  Tree.dirs_below subdir ((name, Dir sub) :: rest)
  = (path_join subdir name
       :: Tree.dirs_under (path_join subdir name) (Dir sub)
          ++ Tree.dirs_below subdir rest)%list.
Proof. reflexivity. Qed.

Lemma walk_remove_dirs (n : node) :
  forall subdir,
    Tree.dirs_under subdir (snd (walk_remove image_verifies subdir n))
    = Tree.dirs_under subdir n.
Proof.
  induction n as [content|es IH] using node_induction; intros subdir;
    [reflexivity|].
  rewrite walk_remove_dir. cbn [snd]. rewrite !dirs_under_dir.
  induction es as [|[name child] rest IHes]; [reflexivity|].
  inversion IH as [|? ? Hchild Hrest]; subst. cbn [snd] in Hchild.
  destruct child as [content|sub].
  - rewrite walk_below_file, dirs_below_file.
    destruct (image_verifies content); cbn [snd];
      rewrite ?dirs_below_file; now apply IHes.
  - rewrite walk_below_dir. cbn [snd]. rewrite !dirs_below_dir.
    specialize (Hchild (path_join subdir name)).
    rewrite walk_remove_dir in Hchild. cbn [snd] in Hchild.
    now rewrite Hchild, (IHes Hrest).
Qed.

(** The sub-directories of the root survive cleaning, names and order. *)
Lemma walk_below_subdirs (subdir : string) (es : list (string * node)) :
  Train.subdirs (snd (walk_below image_verifies subdir es)) = Train.subdirs es.
Proof.
  unfold Train.subdirs.
  induction es as [|[name child] rest IH]; [reflexivity|].
  destruct child as [content|sub].
  - rewrite walk_below_file. destruct (image_verifies content); cbn [snd]; exact IH.
  - rewrite walk_below_dir. cbn [snd filter is_dir map fst]. now rewrite IH.
Qed.

(** X6.  Cleaning never removes, renames or reorders a directory: the
    directories below the root are the same before and after, also those
    the cleaning has emptied. *)
Theorem remove_corrupted_images_keeps_directories
    (root_path : string) (entries : list (string * node)) :
  exists entries',
    snd (remove_corrupted_images image_verifies root_path (Some (Dir entries)))
    = Some (Dir entries') /\
    Tree.dirs_under root_path (Dir entries') = Tree.dirs_under root_path (Dir entries) /\
    Train.subdirs entries' = Train.subdirs entries.
Proof.
  exists (snd (walk_below image_verifies root_path entries)).
  split; [reflexivity|]. split.
  - pose proof (walk_remove_dirs (Dir entries) root_path) as H.
    rewrite walk_remove_dir in H. exact H.
  - apply walk_below_subdirs.
Qed.

Lemma path_join_extends (a b : string) : exists rest, path_join a b = a ++ rest.
Proof.
  unfold path_join. destruct (String.eqb_spec a "") as [->|_]; [now exists b|].
  destruct (String.eqb (drop (String.length a - 1) a) "/"); eauto.
Qed.

Lemma append_assoc (a b c : string) : (a ++ b) ++ c = a ++ (b ++ c).
Proof. induction a as [|x a IH]; simpl; [reflexivity|now rewrite IH]. Qed.

Lemma files_under_paths (n : node) :
  forall subdir,
    Forall (fun pc => exists rest, fst pc = subdir ++ rest) (files_under subdir n).
Proof.
  induction n as [content|es IH] using node_induction; intros subdir;
    [constructor|].
  rewrite files_under_dir. apply Forall_app. split.
  - clear IH. induction es as [|[name [content|sub]] rest IHes];
      [constructor| |exact IHes].
    rewrite files_here_cons_file. constructor; [|exact IHes].
    apply path_join_extends.
  - induction es as [|[name child] rest IHes]; [constructor|].
    inversion IH as [|? ? Hchild Hrest]; subst. cbn [snd] in Hchild.
    destruct child as [content|sub].
    + rewrite files_below_file. now apply IHes.
    + rewrite files_below_dir. apply Forall_app. split; [|now apply IHes].
      destruct (path_join_extends subdir name) as [r Hr].
      eapply Forall_impl; [|exact (Hchild (path_join subdir name))].
      intros pc [tail Htail]. exists (r ++ tail).
      now rewrite Htail, Hr, append_assoc.
Qed.

Lemma filter_partition_length {A : Type} (f : A -> bool) (l : list A) :
  List.length (filter (fun x => negb (f x)) l) + List.length (filter f l)
  = List.length l.
Proof.
  induction l as [|x l IH]; [reflexivity|].
  simpl. destruct (f x); simpl; lia.
Qed.

(** X7.  Every path [remove_corrupted_images] returns is the path of a
    file that was under the root and extends [root_path]; and the files
    removed and the files left add up to the files there were. *)
Theorem remove_corrupted_images_within_root (root_path : string) (root : option node) :
  Forall (fun p => In p (map fst (files_at root_path root)) /\
                   exists rest, p = root_path ++ rest)
         (fst (remove_corrupted_images image_verifies root_path root)) /\
  List.length (fst (remove_corrupted_images image_verifies root_path root))
  + List.length (files_at root_path
                   (snd (remove_corrupted_images image_verifies root_path root)))
  = List.length (files_at root_path root).
Proof.
  destruct root as [[content|es]|]; try (split; [constructor|reflexivity]).
  destruct (walk_remove_spec image_verifies (Dir es) root_path) as [Hr Hk].
  unfold remove_corrupted_images, files_at. cbn [fst snd].
  rewrite Hr, Hk. split.
  - apply Forall_forall. intros p Hp.
    apply in_map_iff in Hp. destruct Hp as (pc & <- & Hpc).
    apply filter_In in Hpc. destruct Hpc as [Hpc _]. split.
    + now apply in_map.
    + pose proof (files_under_paths (Dir es) root_path) as Hall.
      rewrite Forall_forall in Hall. now apply Hall.
  - rewrite length_map. apply filter_partition_length.
Qed.

End Walk.

End CleaningMore.

(** ** More on the training run *)

Module TrainMore.
Import Py Train.

Lemma sorted_length (l : list string) : List.length (sorted l) = List.length l.
Proof. apply Permutation_length, ExportFacts.sorted_perm. Qed.

Lemma in_subdirs (entries : list (string * node)) (name : string)
    (files : list (string * node)) :
  In (name, Dir files) entries -> In name (subdirs entries).
Proof.
  intros H. unfold subdirs.
  change name with (fst (name, Dir files)). apply in_map.
  apply filter_In. now split.
Qed.

(** The validated classes are among the sub-directories. *)
Lemma scanned_classes_le_subdirs (entries : list (string * node)) :
  List.length (Validate.scan_classes entries []) <= List.length (subdirs entries).
Proof.
  assert (Hs : ValidateSpec.scanned entries (Validate.scan_classes entries [])).
  { apply ValidateMore.scan_classes_scanned; [auto|]. split; constructor. }
  destruct Hs as [Hnd Hall].
  rewrite <- (length_map fst (Validate.scan_classes entries [])).
  apply NoDup_incl_length; [exact Hnd|].
  intros k Hk. apply in_map_iff in Hk. destruct Hk as (kv & <- & Hkv).
  rewrite Forall_forall in Hall.
  destruct (Hall kv Hkv) as (_ & _ & files & Hin & _).
  eapply in_subdirs; eassumption.
Qed.

Section Run.
Variable image_verifies : string -> bool.
Variable backbone_depth : nat.
Variable lib : library.

(** X8.  On an accepted dataset over which the generators can be built,
    the model is built with one output per sub-directory of the data
    directory, whether or not the directory holds images or is hidden; this
    is at least the class count the validator reported, and the two can
    differ.  A model the run returns has that many outputs. *)
Theorem train_output_width
    (data_dir output_dir : string) (root : option node)
    (msg : option string) (n t : nat) (cc : dict nat) :
  Validate.validate_dataset data_dir root = Return (true, msg, Validate.Stats n t cc) ->
  flow_from_directory lib data_dir
    (snd (Preprocess.remove_corrupted_images image_verifies data_dir root)) = None ->
  exists entries removed rest,
    root = Some (Dir entries) /\
    fst (fst (Train.train image_verifies backbone_depth lib data_dir output_dir root))
    = RemoveCorruptedImages data_dir removed
        :: CreateDataGenerators data_dir 16 (2 # 10)
        :: BuildModel (List.length (subdirs entries))
        :: rest /\
    n <= List.length (subdirs entries) /\
    forall m,
      snd (Train.train image_verifies backbone_depth lib data_dir output_dir root)
      = Return m ->
      num_outputs m = List.length (subdirs entries).
Proof.
  intros Hv Hflow. destruct root as [[content|entries]|]; try discriminate.
  exists entries. unfold Train.train. rewrite Hv. cbn [negb].
  pose proof (CleaningMore.walk_below_subdirs image_verifies data_dir entries) as Hsub.
  unfold Preprocess.remove_corrupted_images in *.
  rewrite CleaningFacts.walk_remove_dir in *. cbn [fst snd] in *.
  rewrite Hflow, !TrainFacts.call_returns. cbn [fst snd].
  rewrite TrainFacts.call_head.
  cbn [class_indices]. rewrite sorted_length, Hsub.
  do 2 eexists. split; [reflexivity|]. split; [reflexivity|]. split.
  - unfold Validate.validate_dataset in Hv.
    destruct (Validate.collect_errors data_dir (Validate.scan_classes entries []));
      [|discriminate].
    injection Hv as _ Hn _ _. subst n. apply scanned_classes_le_subdirs.
  - intros m Hm.
    repeat first [ apply TrainFacts.call_returned in Hm; destruct Hm as [_ Hm]
                 | apply TrainFacts.guard_returned in Hm; destruct Hm as (_ & _ & Hm) ].
    cbn [snd] in Hm. injection Hm as <-. reflexivity.
Qed.



(** X29.  With the empty string as output directory an accepted dataset
    is cleaned, the generators and the model are built while these calls
    return, and the run then raises [FileNotFoundError] in [get_callbacks],
    which asks for the directory of [fungal_classifier.keras] to be made:
    nothing is fitted and nothing is saved. *)
Theorem train_empty_output_dir
    (data_dir : string) (root : option node)
    (msg : option string) (st : Validate.stats) :
  Validate.validate_dataset data_dir root = Return (true, msg, st) ->
  flow_from_directory lib data_dir
    (snd (Preprocess.remove_corrupted_images image_verifies data_dir root)) = None ->
  mobilenet_v2 lib = None ->
  exists removed k,
    Train.train image_verifies backbone_depth lib data_dir "" root
    = ([ RemoveCorruptedImages data_dir removed;
         CreateDataGenerators data_dir 16 (2 # 10);
         BuildModel k;
         GetCallbacks "fungal_classifier.keras" ],
       snd (Preprocess.remove_corrupted_images image_verifies data_dir root),
       Raise (FileNotFoundError "")).
Proof.
  intros Hv. unfold Train.train. rewrite Hv. cbn [negb].
  destruct (Preprocess.remove_corrupted_images image_verifies data_dir root)
    as [removed root1].
  cbn [fst snd]. intros Hflow Hnet. rewrite Hflow, Hnet.
  do 2 eexists. reflexivity.
Qed.

End Run.

Lemma train_output_width_witness :
  exists entries removed rest,
    Some (Dir MoreSamples.dataset_with_empty_class) = Some (Dir entries) /\
    fst (fst (Train.train (fun _ => true) 154 Samples.working_library "data" "models"
                (Some (Dir MoreSamples.dataset_with_empty_class))))
    = RemoveCorruptedImages "data" removed
        :: CreateDataGenerators "data" 16 (2 # 10)
        :: BuildModel (List.length (subdirs entries))
        :: rest /\
    2 <= List.length (subdirs entries) /\
    forall m,
      snd (Train.train (fun _ => true) 154 Samples.working_library "data" "models"
             (Some (Dir MoreSamples.dataset_with_empty_class)))
      = Return m ->
      num_outputs m = List.length (subdirs entries).
Proof.
  apply (train_output_width (fun _ => true) 154 Samples.working_library "data" "models"
           (Some (Dir MoreSamples.dataset_with_empty_class)) None 2 20
           [("tinea_pedis", 10); ("candidiasis", 10)]).
  - vm_compute. reflexivity.
  - reflexivity.
Defined.

(** With a class directory that holds no image the validator reports 2
    classes and the model is built with 3 outputs. *)
Example train_output_width_differs :
  exists m,
    snd (Train.train (fun _ => true) 154 Samples.working_library "data" "models"
           (Some (Dir MoreSamples.dataset_with_empty_class))) = Return m /\
    num_outputs m = 3 /\
    Validate.validate_dataset "data" (Some (Dir MoreSamples.dataset_with_empty_class))
    = Return (true, None, Validate.Stats 2 20 [("tinea_pedis", 10); ("candidiasis", 10)]).
Proof.
  eexists. split; [vm_compute; reflexivity|]. split; [reflexivity|].
  vm_compute. reflexivity.
Qed.


Lemma train_empty_output_dir_witness :
  exists removed k,
    Train.train (fun _ => true) 154 Samples.working_library "data" ""
      (Some (Dir Samples.two_class_dataset))
    = ([ RemoveCorruptedImages "data" removed;
         CreateDataGenerators "data" 16 (2 # 10);
         BuildModel k;
         GetCallbacks "fungal_classifier.keras" ],
       snd (Preprocess.remove_corrupted_images (fun _ => true) "data"
              (Some (Dir Samples.two_class_dataset))),
       Raise (FileNotFoundError "")).
Proof.
  apply (train_empty_output_dir (fun _ => true) 154 Samples.working_library "data"
           (Some (Dir Samples.two_class_dataset)) None
           (Validate.Stats 2 20 [("tinea_pedis", 10); ("candidiasis", 10)])).
  - vm_compute. reflexivity.
  - reflexivity.
  - reflexivity.
Defined.

End TrainMore.

(** ** More on export *)

Module ExportMore.
Import Py ExportTflite Predict.

Lemma append_nil_r (s : string) : s ++ "" = s.
Proof. induction s as [|c s IH]; simpl; [reflexivity|now rewrite IH]. Qed.

(** The text written is the class names, each followed by a newline. *)
Lemma labels_text_unfold (names : list string) :
  forall written,
    fold_left (fun written class_name => written ++ class_name ++ newline) names written
    = written ++ fold_right (fun class_name rest => class_name ++ newline ++ rest) "" names.
Proof.
  induction names as [|n names IH]; intros written; simpl.
  - now rewrite append_nil_r.
  - rewrite IH. now rewrite !CleaningMore.append_assoc.
Qed.

Lemma lines_from_line (n : string) :
  forall current rest,
    free_of_line_breaks n = true ->
    lines_from current (n ++ String (ascii_of_nat 10) rest)
    = (current ++ n) :: lines_from "" rest.
Proof.
  induction n as [|c n IH]; intros current rest Hn.
  - cbn [append lines_from]. rewrite Ascii.eqb_refl. now rewrite append_nil_r.
  - cbn [free_of_line_breaks] in Hn.
    apply andb_true_iff in Hn. destruct Hn as [Hc Hn].
    apply andb_true_iff in Hc. destruct Hc as [Hlf Hcr].
    apply negb_true_iff in Hlf. apply negb_true_iff in Hcr.
    change (String c n ++ String (ascii_of_nat 10) rest)
      with (String c (n ++ String (ascii_of_nat 10) rest)).
    cbn [lines_from]. rewrite Hlf, Hcr, (IH _ _ Hn).
    now rewrite CleaningMore.append_assoc.
Qed.

(** X11.  Writing a list of class names none of which contains a line
    feed or a carriage return and reading the file back line by line gives
    the list again, so the file has as many lines as there are names, in
    their order. *)
Theorem labels_round_trip (class_names : list string) :
  Forall (fun name => free_of_line_breaks name = true) class_names ->
  lines (labels_text class_names) = class_names.
Proof.
  unfold lines, labels_text. rewrite labels_text_unfold. cbn [append].
  induction 1 as [|n names Hn _ IH]; [reflexivity|].
  cbn [fold_right].
  change (newline ++ ?r) with (String (ascii_of_nat 10) r).
  rewrite (lines_from_line n "" _ Hn). cbn [append].
  now rewrite IH.
Qed.

Lemma labels_round_trip_witness :
  lines (labels_text ["acne"; ""; "tinea pedis"]) = ["acne"; ""; "tinea pedis"].
Proof.
  apply labels_round_trip. repeat constructor.
Defined.

(** A name that holds a carriage return does not come back: it is read
    as two lines. *)
Example labels_round_trip_carriage_return :
  lines (labels_text [String "a" (String (ascii_of_nat 13) "b")]) = ["a"; "b"].
Proof. reflexivity. Qed.

Section Exporting.
Variable load_interpreter : string -> result interpreter.
Variable randn : list nat -> Preprocess.tensor.
Variable lib : library.

(** X12.  [export_all] never completes, and how far it gets depends on
    the float16 conversion alone.  When that conversion raises, the run
    ends there with its exception.  When the model loads, converts, and the
    artifact is written, the run ends in the quantized conversion with the
    converter's refusal of the int8 target: the float16 artifact is on
    disk, and neither the quantized artifact nor the label file is written
    and nothing is verified. *)
Theorem export_all_stops_at_quantized
    (keras_model_path output_dir : string) :
  let float16_path := path_join output_dir "fungal_classifier.tflite" in
  let quant_path := path_join output_dir "fungal_classifier_quant.tflite" in
  (forall e,
     snd (convert_to_tflite lib keras_model_path float16_path false) = Raise e ->
     export_all load_interpreter randn lib keras_model_path output_dir
     = (fst (convert_to_tflite lib keras_model_path float16_path false), Raise e)) /\
  (forall content,
     load_model lib keras_model_path = None ->
     convert_float16 lib keras_model_path = Return content ->
     makedirs (os_makedirs lib) (dirname float16_path) = None ->
     write_bytes lib float16_path content = None ->
     export_all load_interpreter randn lib keras_model_path output_dir
     = ([ ConvertToTflite keras_model_path float16_path false;
          WriteBytes float16_path content;
          ConvertToTflite keras_model_path quant_path true ],
        Raise (int8_refusal lib))).
Proof.
  cbv zeta. split.
  - intros e E. unfold export_all. now rewrite (ExportFacts.bind_raise _ _ e E).
  - intros content Hload Hconv Hdirs Hwrite.
    unfold export_all.
    rewrite ExportFacts.convert_to_tflite_quantized, Hload.
    unfold convert_to_tflite, bind, emit, check, lift, ret. cbn [fst snd].
    rewrite Hload. cbn [fst snd]. rewrite Hconv. cbn [fst snd].
    rewrite Hdirs. cbn [fst snd]. rewrite Hwrite. reflexivity.
Qed.

End Exporting.

Lemma export_all_stops_at_quantized_witness :
  export_all Samples.lopsided_loader Samples.zeros Samples.working_exporter "m.keras" "models"
  = ([ ConvertToTflite "m.keras" "models/fungal_classifier.tflite" false;
       WriteBytes "models/fungal_classifier.tflite" "TFL3";
       ConvertToTflite "m.keras" "models/fungal_classifier_quant.tflite" true ],
     Raise (int8_refusal Samples.working_exporter)).
Proof.
  apply (proj2 (export_all_stops_at_quantized Samples.lopsided_loader Samples.zeros
                  Samples.working_exporter "m.keras" "models") "TFL3");
    reflexivity.
Defined.

(** *** Labelling a prediction *)

Lemma argmax_from_first_maximum (xs : list Q) :
  forall (pre : list Q) (best_i : nat) (best : Q),
    first_maximum pre best_i best ->
    first_maximum (pre ++ xs)
      (fst (argmax_from best_i best (List.length pre) xs))
      (snd (argmax_from best_i best (List.length pre) xs)).
Proof.
  induction xs as [|x xs IH]; intros pre best_i best Hmax.
  - now rewrite app_nil_r.
  - cbn [argmax_from].
    replace (pre ++ x :: xs)%list with ((pre ++ [x]) ++ xs)%list
      by now rewrite <- app_assoc.
    replace (S (List.length pre)) with (List.length (pre ++ [x])%list)
      by (rewrite length_app; simpl; lia).
    destruct Hmax as (Hnth & Hall & Hfirst).
    assert (Hlt : best_i < List.length pre)
      by (apply nth_error_Some; congruence).
    destruct (Qle_bool x best) eqn:E; apply IH.
    + apply Qle_bool_iff in E. repeat split.
      * now rewrite nth_error_app1.
      * apply Forall_app. split; [exact Hall|now constructor].
      * intros j y Hj Hy. rewrite nth_error_app1 in Hy by lia. eauto.
    + assert (Hbx : (best < x)%Q).
      { apply Qnot_le_lt. intros H. apply Qle_bool_iff in H. congruence. }
      repeat split.
      * rewrite nth_error_app2 by lia. now rewrite Nat.sub_diag.
      * apply Forall_app. split; [|constructor; [apply Qle_refl|constructor]].
        eapply Forall_impl; [|exact Hall]. intros y Hy. simpl in Hy.
        apply Qlt_le_weak. eapply Qle_lt_trans; eassumption.
      * intros j y Hj Hy. rewrite nth_error_app1 in Hy by lia.
        eapply Qle_lt_trans; [|exact Hbx].
        rewrite Forall_forall in Hall. apply Hall.
        eapply nth_error_In; eassumption.
Qed.

(** X13.  For a non-empty output vector the labelling takes the first
    position that holds the maximum: it returns the class name at that
    position with the maximum times 100 as confidence, and fails with an
    index error exactly when that position is beyond the end of the class
    list; on an empty vector it fails before any look-up. *)
Theorem label_prediction_first_maximum (class_names : list string) (output0 : list Q) :
  (output0 = [] /\ label_prediction class_names output0 = EmptyOutput) \/
  (exists i best,
     first_maximum output0 i best /\
     label_prediction class_names output0
     = match nth_error class_names i with
       | Some name => Predicted name (best * 100)%Q
       | None => IndexError i
       end).
Proof.
  destruct output0 as [|x r]; [now left|right].
  pose proof (argmax_from_first_maximum r [x] 0 x) as H.
  cbn [List.length app] in H.
  unfold label_prediction.
  destruct (argmax_from 0 x 1 r) as [i best]. cbn [fst snd] in H.
  exists i, best. split; [|reflexivity].
  apply H. repeat split.
  - constructor; [apply Qle_refl|constructor].
  - intros j y Hj. lia.
Qed.

(** X14.  When the output vector is non-empty and no longer than the class
    list -- a model with at most four outputs, for [CLASS_NAMES] -- the
    labelling succeeds, the label is one of the class names, and the
    confidence is 100 times an entry that no other entry exceeds. *)
Theorem label_prediction_within_classes (class_names : list string) (output0 : list Q) :
  output0 <> [] ->
  List.length output0 <= List.length class_names ->
  exists name best,
    label_prediction class_names output0 = Predicted name (best * 100)%Q /\
    In name class_names /\
    In best output0 /\
    Forall (fun x => x <= best)%Q output0.
Proof.
  intros Hne Hlen.
  destruct output0 as [|x r]; [congruence|].
  pose proof (argmax_from_first_maximum r [x] 0 x) as H.
  cbn [List.length app] in H. unfold label_prediction.
  destruct (argmax_from 0 x 1 r) as [i best]. cbn [fst snd] in H.
  destruct H as (Hnth & Hall & _).
  { repeat split.
    - constructor; [apply Qle_refl|constructor].
    - intros j y Hj. lia. }
  assert (Hi : i < List.length class_names).
  { assert (i < List.length (x :: r)) by (apply nth_error_Some; congruence). lia. }
  destruct (nth_error class_names i) as [name|] eqn:E.
  - exists name, best. repeat split; try assumption.
    + eapply nth_error_In; eassumption.
    + eapply nth_error_In; eassumption.
  - apply nth_error_None in E. lia.
Qed.

Lemma label_prediction_within_classes_witness :
  exists name best,
    label_prediction Config.CLASS_NAMES [1 # 10; 6 # 10; 3 # 10]%Q
    = Predicted name (best * 100)%Q /\
    In name Config.CLASS_NAMES /\
    In best [1 # 10; 6 # 10; 3 # 10]%Q /\
    Forall (fun x => x <= best)%Q [1 # 10; 6 # 10; 3 # 10]%Q.
Proof.
  apply label_prediction_within_classes; [discriminate|simpl; lia].
Defined.

(** A model with five outputs whose fifth is the largest cannot be
    labelled from the four configured names. *)
Example label_prediction_fifth_output :
  label_prediction Config.CLASS_NAMES [1 # 10; 1 # 10; 1 # 10; 1 # 10; 6 # 10]%Q
  = IndexError 4.
Proof. reflexivity. Qed.

End ExportMore.

(** ** The admin server: training state *)

Module AdminFacts.
Import Py Admin.

Lemma start_training_accepts (s : training_state) (tasks : nat) :
  status s <> "running" ->
  start_training s tasks
  = (Ok "Training started",
     set_message "Training starting..." (set_status "starting" s), S tasks).
Proof.
  intros H. unfold start_training.
  now destruct (String.eqb_spec (status s) "running").
Qed.

(** X15.  A start request is refused, with status 400 and nothing changed,
    exactly when the state says [running]; in every other state, [starting]
    included, it is accepted, queues one more task and publishes
    [starting]. *)
Theorem start_training_refused_iff_running (s : training_state) (tasks : nat) :
  (status s = "running" /\
   start_training s tasks = (HTTPException 400 "Training already in progress", s, tasks))
  \/
  (status s <> "running" /\
   exists s',
     start_training s tasks = (Ok "Training started", s', S tasks) /\
     status s' = "starting" /\ message s' = "Training starting..." /\
     started_at s' = started_at s /\ completed_at s' = completed_at s).
Proof.
  unfold start_training.
  destruct (String.eqb_spec (status s) "running") as [E|E].
  - left. now split.
  - right. split; [exact E|]. eexists. split; [reflexivity|]. now repeat split.
Qed.

(** X16.  The guard does not bound the number of runs: from a state that
    is not [running], any number of start requests in a row are all
    accepted, each queueing a further [run_training] task. *)
Theorem start_training_queues_every_request (n : nat) :
  forall (s : training_state) (tasks : nat),
    status s <> "running" ->
    snd (start_n n s tasks) = tasks + n /\
    (0 < n -> status (fst (start_n n s tasks)) = "starting").
Proof.
  induction n as [|n IH]; intros s tasks Hs.
  - simpl. split; [lia|lia].
  - cbn [start_n]. rewrite (start_training_accepts s tasks Hs).
    destruct (IH (set_message "Training starting..." (set_status "starting" s))
                 (S tasks)) as [Hq Hst]; [discriminate|].
    split; [rewrite Hq; lia|]. intros _.
    destruct n as [|n']; [reflexivity|]. apply Hst. lia.
Qed.

Lemma start_training_queues_every_request_witness :
  snd (start_n 3 initial_training_state 0) = 0 + 3 /\
  (0 < 3 -> status (fst (start_n 3 initial_training_state 0)) = "starting").
Proof.
  apply (start_training_queues_every_request 3 initial_training_state 0).
  discriminate.
Defined.

(** X17.  How a run ends.  The export script is launched exactly when the
    training script exits with code 0; the final status is [completed]
    exactly when in addition the export call did not raise, whatever the
    export's own exit code, and [failed] otherwise; both time stamps are
    set and the two accuracy fields are left as they were. *)
Theorem run_training_outcome
    (now1 now2 : string) (train export : process) (s : training_state) :
  let trained := match train with Exited rc _ => Z.eqb rc 0 | RunRaised _ => false end in
  let exported := match export with Exited _ _ => true | RunRaised _ => false end in
  let r := run_training now1 now2 train export s in
  fst r = (if trained then [TrainScript; ExportScript] else [TrainScript]) /\
  status (snd r) = (if trained && exported then "completed" else "failed") /\
  started_at (snd r) = Some now1 /\
  completed_at (snd r) = Some now2 /\
  accuracy (snd r) = accuracy s /\
  val_accuracy (snd r) = val_accuracy s.
Proof.
  unfold run_training, run_training_end.
  destruct train as [rc err|text]; [destruct (Z.eqb rc 0)|];
    destruct export as [rc' err'|text']; cbn; repeat split.
Qed.

Lemma len_chars_app (a b : string) :
  len_chars (a ++ b) = len_chars a + len_chars b.
Proof.
  induction a as [|c a IH]; simpl; [reflexivity|].
  destruct (is_continuation c); simpl; now rewrite IH.
Qed.

Lemma take_chars_prefix (s : string) :
  forall n, exists rest, s = take_chars n s ++ rest.
Proof.
  induction s as [|c s IH]; intros n; simpl; [now exists ""|].
  destruct (is_continuation c).
  - destruct (IH n) as [rest Hrest]. exists rest. simpl. now rewrite <- Hrest.
  - destruct n as [|m]; [now exists (String c s)|].
    destruct (IH m) as [rest Hrest]. exists rest. simpl. now rewrite <- Hrest.
Qed.

Lemma take_chars_len (s : string) :
  forall n, len_chars (take_chars n s) <= n.
Proof.
  induction s as [|c s IH]; intros n; simpl; [lia|].
  destruct (is_continuation c) eqn:E; simpl.
  - rewrite E. apply IH.
  - destruct n as [|m]; simpl; [lia|]. rewrite E. specialize (IH m). lia.
Qed.

Lemma take_chars_all (s : string) :
  forall n, len_chars s <= n -> take_chars n s = s.
Proof.
  induction s as [|c s IH]; intros n Hn; simpl in *; [reflexivity|].
  destruct (is_continuation c).
  - now rewrite IH.
  - destruct n as [|m]; [lia|]. rewrite IH; [reflexivity|lia].
Qed.

(** X18.  When the training script exits with a non-zero code the message
    is [Training failed: ] followed by a prefix of its standard error of at
    most 500 characters -- all of it when it has no more than 500 -- so the
    message never exceeds 517 characters. *)
Theorem run_training_failure_message
    (now1 now2 : string) (rc : Z) (stderr : string) (export : process)
    (s : training_state) :
  rc <> 0%Z ->
  exists shown rest,
    message (snd (run_training now1 now2 (Exited rc stderr) export s))
    = "Training failed: " ++ shown /\
    stderr = shown ++ rest /\
    len_chars shown <= 500 /\
    (len_chars stderr <= 500 -> rest = "") /\
    len_chars (message (snd (run_training now1 now2 (Exited rc stderr) export s))) <= 517.
Proof.
  intros Hrc.
  assert (Hmsg : message (snd (run_training now1 now2 (Exited rc stderr) export s))
                 = "Training failed: " ++ take_chars 500 stderr).
  { unfold run_training, run_training_end.
    destruct (Z.eqb_spec rc 0) as [?|_]; [contradiction|]. reflexivity. }
  rewrite Hmsg.
  destruct (take_chars_prefix stderr 500) as [rest Hrest].
  exists (take_chars 500 stderr), rest.
  pose proof (take_chars_len stderr 500) as Hlen.
  repeat split; try assumption.
  - intros Hall. rewrite (take_chars_all stderr 500 Hall) in Hrest.
    clear -Hrest. revert Hrest. generalize stderr as t.
    induction t as [|c t IH]; simpl; intros H; [now destruct rest|].
    injection H as H. now apply IH.
  - rewrite len_chars_app.
    change (len_chars "Training failed: ") with 17. lia.
Qed.

Lemma run_training_failure_message_witness :
  exists shown rest,
    message (snd (run_training "t1" "t2" (Exited 1 "ValueError: ❌ too few") (Exited 0 "")
                    initial_training_state))
    = "Training failed: " ++ shown /\
    "ValueError: ❌ too few" = shown ++ rest /\
    len_chars shown <= 500 /\
    (len_chars "ValueError: ❌ too few" <= 500 -> rest = "") /\
    len_chars (message (snd (run_training "t1" "t2" (Exited 1 "ValueError: ❌ too few")
                               (Exited 0 "") initial_training_state))) <= 517.
Proof.
  apply (run_training_failure_message "t1" "t2" 1 "ValueError: ❌ too few").
  discriminate.
Defined.

Lemma Forall_set_nth {A : Type} (P : A -> Prop) (a : A) (l : list A) :
  forall i, Forall P l -> P a -> Forall P (set_nth i a l).
Proof.
  induction l as [|x l IH]; intros i Hl Ha; [destruct i; constructor|].
  inversion Hl; subst. destruct i; cbn [set_nth]; constructor; auto.
Qed.

Lemma Forall_nth_error {A : Type} (P : A -> Prop) (l : list A) (i : nat) (a : A) :
  Forall P l -> nth_error l i = Some a -> P a.
Proof.
  intros Hl Hi. rewrite Forall_forall in Hl. apply Hl.
  eapply nth_error_In; eassumption.
Qed.

Ltac coherent_fields :=
  cbn [state runs status message started_at completed_at accuracy val_accuracy
       set_status set_message set_started_at set_completed_at] in *.

(** A step of one thread keeps the server coherent. *)
Lemma coherent_advance (inp : input) (p p' : position) (s s' : training_state)
    (threads : list position) (i : nat) :
  coherent {| state := s; runs := threads |} ->
  nth_error threads i = Some p ->
  advance inp p s = Some (p', s') ->
  coherent {| state := s'; runs := set_nth i p' threads |}.
Proof.
  unfold coherent. coherent_fields.
  intros (Hst & Hacc & Hval & Hdone & Hend & Hpast & Hidle) Hnth Hadv.
  pose proof (Forall_nth_error _ _ _ _ Hpast Hnth) as Hp. cbv beta in Hp.
  assert (Hb : status s = "idle" -> before_assignments p = true).
  { intros E. destruct (Hidle E) as [_ Hall].
    exact (Forall_nth_error _ _ _ _ Hall Hnth). }
  assert (Hkeep : forall q,
             (past_start q = true -> started_at s <> None) ->
             Forall (fun p => past_start p = true -> started_at s <> None)
                    (set_nth i q threads))
    by (intros q Hq; apply Forall_set_nth; assumption).
  assert (Hset : forall now q,
             Forall (fun p => past_start p = true -> Some now <> @None string)
                    (set_nth i q threads))
    by (intros now q; apply Forall_forall; intros; discriminate).
  destruct p; destruct inp as [|now|[returncode stderr|text']];
    cbn [advance] in Hadv; try discriminate Hadv;
    try match type of Hadv with
        | context [String.eqb (status s) "running"] =>
            destruct (String.eqb_spec (status s) "running") as [Erun|Erun]
        | context [Z.eqb returncode 0] => destruct (Z.eqb returncode 0)
        end;
    injection Hadv as <- <-; coherent_fields;
    (split; [first [exact Hst | simpl; tauto]|]);
    (split; [exact Hacc|]); (split; [exact Hval|]);
    (split; [first [exact Hdone | intros _; apply Hp; reflexivity
                    | intros _; discriminate | intros [H|H]; discriminate H ]|]);
    (split; [first [exact Hend | intros _; apply Hp; reflexivity
                    | intros _; discriminate ]|]);
    (split; [first [apply Hset | apply Hkeep; first [exact Hp | discriminate
                    | intros _; apply Hp; reflexivity ]]|]);
    try (intros E; discriminate E);
    intros E; specialize (Hb E); try discriminate Hb.
  - rewrite E in Erun. discriminate Erun.
  - destruct (Hidle E) as [Hs Hall]. split; [exact Hs|].
    apply Forall_set_nth; [exact Hall|reflexivity].
Qed.

Lemma coherent_step (e : event) (srv srv' : server) :
  coherent srv -> step e srv = Some srv' -> coherent srv'.
Proof.
  destruct srv as [s threads]. intros Hc Hstep.
  destruct e as [|i inp]; cbn [step state runs] in Hstep.
  - injection Hstep as <-. unfold coherent in *. coherent_fields.
    destruct Hc as (Hst & Hacc & Hval & Hdone & Hend & Hpast & Hidle).
    repeat (split; [assumption|]). split.
    + apply Forall_app. split; [exact Hpast|]. constructor; [discriminate|constructor].
    + intros E. destruct (Hidle E) as [Hs Hall]. split; [exact Hs|].
      apply Forall_app. split; [exact Hall|]. constructor; [reflexivity|constructor].
  - destruct (nth_error threads i) as [p|] eqn:Hnth; [|discriminate].
    destruct (advance inp p s) as [[p' s']|] eqn:Hadv; [|discriminate].
    injection Hstep as <-. eapply coherent_advance; eassumption.
Qed.

(** X19.  The handler and the background tasks run on the shared
    dictionary one assignment at a time, in any order.  Over every such
    sequence of steps from the initial state, the published status is one
    of [idle], [starting], [running], [completed], [failed]; the accuracy
    fields are never filled in; a [completed] or [failed] state, and one
    with an end time, carries a start time; every thread that has passed
    the assignment of [started_at] sees a start time; and while the status
    is [idle] the dictionary is the initial one. *)
Theorem training_state_coherent (es : list event) (srv : server) :
  steps es initial_server = Some srv ->
  In (status (state srv)) ["idle"; "starting"; "running"; "completed"; "failed"] /\
  accuracy (state srv) = None /\ val_accuracy (state srv) = None /\
  (status (state srv) = "completed" \/ status (state srv) = "failed" ->
   started_at (state srv) <> None) /\
  (completed_at (state srv) <> None -> started_at (state srv) <> None) /\
  Forall (fun p => past_start p = true -> started_at (state srv) <> None) (runs srv) /\
  (status (state srv) = "idle" -> state srv = initial_training_state).
Proof.
  intros Hsteps.
  assert (Hinit : coherent initial_server).
  { unfold coherent, initial_server, initial_training_state. coherent_fields.
    split; [simpl; tauto|]. do 2 (split; [reflexivity|]).
    split; [intros [H|H]; discriminate H|].
    split; [intros H; now elim H|].
    split; [constructor|]. intros _. split; [reflexivity|constructor]. }
  assert (H : coherent srv).
  { revert Hsteps. generalize dependent initial_server.
    induction es as [|e es IH]; intros s0 H0 Hs; cbn [steps] in Hs.
    - injection Hs as <-. exact H0.
    - destruct (step e s0) as [s1|] eqn:E; [|discriminate].
      apply (IH s1); [eapply coherent_step; eassumption|exact Hs]. }
  destruct H as (H1 & H2 & H3 & H4 & H5 & H6 & H7).
  repeat (split; [assumption|]). intros E. now destruct (H7 E).
Qed.

Lemma training_state_coherent_witness :
  In (status (state MoreSamples.overlapping_server))
     ["idle"; "starting"; "running"; "completed"; "failed"] /\
  accuracy (state MoreSamples.overlapping_server) = None /\
  val_accuracy (state MoreSamples.overlapping_server) = None /\
  (status (state MoreSamples.overlapping_server) = "completed" \/
   status (state MoreSamples.overlapping_server) = "failed" ->
   started_at (state MoreSamples.overlapping_server) <> None) /\
  (completed_at (state MoreSamples.overlapping_server) <> None ->
   started_at (state MoreSamples.overlapping_server) <> None) /\
  Forall (fun p => past_start p = true ->
                   started_at (state MoreSamples.overlapping_server) <> None)
         (runs MoreSamples.overlapping_server) /\
  (status (state MoreSamples.overlapping_server) = "idle" ->
   state MoreSamples.overlapping_server = initial_training_state).
Proof.
  apply (training_state_coherent MoreSamples.overlapping_requests).
  reflexivity.
Defined.

(** A [completed] status does not mean that the run is over: while the
    first run is in the export, with no end time published, a second
    request passes the guard. *)
Example completed_before_the_end :
  steps MoreSamples.overlapping_requests initial_server
  = Some MoreSamples.overlapping_server /\
  status (state MoreSamples.overlapping_server) = "completed" /\
  completed_at (state MoreSamples.overlapping_server) = None /\
  runs MoreSamples.overlapping_server = [Exporting; Accepted].
Proof. repeat split. Qed.

(** The handler without another thread in between is [start_training]. *)
Lemma advance_all_start_training (s : training_state) (tasks : nat) :
  if String.eqb (status s) "running"
  then advance Plain Arrived s = Some (Refused, s) /\
       start_training s tasks = (HTTPException 400 "Training already in progress", s, tasks)
  else exists s',
         advance_all [Plain; Plain; Plain] Arrived s = Some (Queued, s') /\
         start_training s tasks = (Ok "Training started", s', S tasks).
Proof.
  unfold start_training. cbn [advance_all advance].
  destruct (String.eqb (status s) "running"); [now split|].
  eexists. split; reflexivity.
Qed.


End AdminFacts.

(** ** The admin server: disease records and login *)

Module DiseaseFacts.
Import Py Admin.

Lemma dict_get_set_eq {V : Type} (d : dict V) (k : string) (v : V) :
  dict_get (dict_set d k v) k = Some v.
Proof.
  induction d as [|[k' v'] d IH]; simpl.
  - now rewrite String.eqb_refl.
  - destruct (String.eqb k' k) eqn:E; simpl; rewrite E; [reflexivity|exact IH].
Qed.

Lemma dict_get_set_ne {V : Type} (d : dict V) (k k' : string) (v : V) :
  k <> k' -> dict_get (dict_set d k v) k' = dict_get d k'.
Proof.
  intros Hne. induction d as [|[k0 v0] d IH]; simpl.
  - now destruct (String.eqb_spec k k').
  - destruct (String.eqb_spec k0 k) as [->|E]; simpl.
    + now destruct (String.eqb_spec k k').
    + now rewrite IH.
Qed.

Lemma dict_set_same {V : Type} (d : dict V) (k : string) (v : V) :
  dict_get d k = Some v -> dict_set d k v = d.
Proof.
  induction d as [|[k0 v0] d IH]; simpl; [discriminate|].
  destruct (String.eqb k0 k); intros H.
  - now injection H as ->.
  - now rewrite IH.
Qed.

Lemma dict_set_present_keys {V : Type} (d : dict V) (k : string) (v v' : V) :
  dict_get d k = Some v' -> keys (dict_set d k v) = keys d.
Proof.
  induction d as [|[k0 v0] d IH]; simpl; [discriminate|].
  destruct (String.eqb k0 k); intros H; simpl; [reflexivity|].
  now rewrite IH.
Qed.

Lemma dict_get_absent {V : Type} (d : dict V) (k : string) :
  ~ In k (keys d) -> dict_get d k = None.
Proof.
  induction d as [|[k0 v0] d IH]; simpl; [reflexivity|]. intros H.
  destruct (String.eqb_spec k0 k) as [->|_]; [exfalso; apply H; now left|].
  apply IH. intros Hin. apply H. now right.
Qed.

Lemma dict_get_in {V : Type} (d : dict V) (k : string) (v : V) :
  NoDup (keys d) -> In (k, v) d -> dict_get d k = Some v.
Proof.
  induction d as [|[k0 v0] d IH]; simpl; [intros _ []|].
  intros Hnd [H|H]; inversion Hnd as [|? ? Hnotin Hnd']; subst.
  - injection H as -> ->. now rewrite String.eqb_refl.
  - destruct (String.eqb_spec k0 k) as [->|_]; [|now apply IH].
    exfalso. apply Hnotin. change k with (fst (k, v)). now apply in_map.
Qed.

Lemma distinct_keys_sound (l : list string) : distinct_keys l = true -> NoDup l.
Proof.
  induction l as [|k r IH]; simpl; [constructor|].
  intros H. apply andb_true_iff in H. destruct H as [Hk Hr].
  constructor; [|now apply IH].
  intros Hin. apply ValidateMore.str_in_spec in Hin.
  rewrite Hin in Hk. discriminate.
Qed.

(** The fields of an update carry pairwise distinct keys. *)
Lemma provided_fields_distinct (data : disease_info_update) :
  NoDup (keys (provided_fields data)).
Proof.
  apply distinct_keys_sound.
  destruct data as [[?|] [?|] [?|] [?|] [?|] [?|] [?|] [?|]]; reflexivity.
Qed.

(** After the assignment loop a key that was given holds the given value
    and every other key holds what it held. *)
Lemma apply_fields_get (fields : list (string * value)) :
  forall (record : dict value) (k : string),
    NoDup (keys fields) ->
    dict_get (apply_fields record fields) k
    = match dict_get fields k with
      | Some v => Some v
      | None => dict_get record k
      end.
Proof.
  unfold apply_fields.
  induction fields as [|[k1 v1] fields IH]; intros record k Hnd; [reflexivity|].
  simpl in Hnd. inversion Hnd as [|? ? Hnotin Hnd']; subst.
  cbn [fold_left fst snd dict_get]. rewrite (IH _ _ Hnd').
  destruct (String.eqb_spec k1 k) as [->|Hne].
  - rewrite (dict_get_absent fields k Hnotin). apply dict_get_set_eq.
  - destruct (dict_get fields k); [reflexivity|]. now apply dict_get_set_ne.
Qed.

Lemma apply_fields_fixed (fields : list (string * value)) :
  forall record : dict value,
    (forall k v, In (k, v) fields -> dict_get record k = Some v) ->
    apply_fields record fields = record.
Proof.
  unfold apply_fields.
  induction fields as [|[k1 v1] fields IH]; intros record H; [reflexivity|].
  cbn [fold_left fst snd].
  rewrite (dict_set_same record k1 v1) by (apply H; now left).
  apply IH. intros k v Hin. apply H. now right.
Qed.

(** X20.  An update of an unknown record -- also when the file does not
    exist -- answers 404 and leaves the file as it is.  An update of a known
    record answers with the new record, which a following [get_disease]
    returns: it holds every given field with the given value and every other
    field as before; no other record changes and the records keep their
    order. *)
Theorem update_disease_effect
    (disease_id : string) (data : disease_info_update) (file : store) :
  match dict_get (load_disease_info file) disease_id with
  | None =>
      update_disease disease_id data file
      = (HTTPException 404 "Disease not found", file)
  | Some old =>
      exists new file',
        update_disease disease_id data file = (Ok new, file') /\
        get_disease disease_id file' = Ok new /\
        (forall k v, In (k, v) (provided_fields data) -> dict_get new k = Some v) /\
        (forall k, ~ In k (keys (provided_fields data)) ->
                   dict_get new k = dict_get old k) /\
        (forall other, other <> disease_id ->
                       get_disease other file' = get_disease other file) /\
        keys (load_disease_info file') = keys (load_disease_info file)
  end.
Proof.
  unfold update_disease.
  destruct (dict_get (load_disease_info file) disease_id) as [old|] eqn:E;
    [|reflexivity].
  do 2 eexists. split; [reflexivity|].
  pose proof (provided_fields_distinct data) as Hnd.
  unfold get_disease, save_disease_info. cbn [load_disease_info].
  split; [now rewrite dict_get_set_eq|]. split; [|split; [|split]].
  - intros k v Hin. rewrite (apply_fields_get _ _ _ Hnd).
    now rewrite (dict_get_in _ _ _ Hnd Hin).
  - intros k Hk. rewrite (apply_fields_get _ _ _ Hnd).
    now rewrite (dict_get_absent _ _ Hk).
  - intros other Hne. rewrite dict_get_set_ne by congruence. reflexivity.
  - eapply dict_set_present_keys; eassumption.
Qed.

(** X21.  Updates are idempotent: sending the same update again answers
    with the same record and leaves the same file; in particular an update
    that gives no field answers with the record as stored. *)
Theorem update_disease_idempotent
    (disease_id : string) (data : disease_info_update) (file : store) :
  update_disease disease_id data (snd (update_disease disease_id data file))
  = (fst (update_disease disease_id data file),
     snd (update_disease disease_id data file)).
Proof.
  unfold update_disease.
  destruct (dict_get (load_disease_info file) disease_id) as [old|] eqn:E.
  - cbn [fst snd save_disease_info load_disease_info].
    rewrite dict_get_set_eq.
    pose proof (provided_fields_distinct data) as Hnd.
    assert (Hfix : apply_fields (apply_fields old (provided_fields data))
                     (provided_fields data)
                   = apply_fields old (provided_fields data)).
    { apply apply_fields_fixed. intros k v Hin.
      rewrite (apply_fields_get _ _ _ Hnd). now rewrite (dict_get_in _ _ _ Hnd Hin). }
    rewrite Hfix. f_equal. f_equal.
    apply dict_set_same. apply dict_get_set_eq.
  - cbn [fst snd]. now rewrite E.
Qed.

End DiseaseFacts.

Module AuthFacts.
Import Auth.

(** X22.  Logging in succeeds exactly for the user [admin] with the
    configured password ([admin123] when none is configured), and the token
    it hands out is accepted by [verify_token]; a request without a token is
    answered 401 and one with any other token 403. *)
Theorem login_token_is_accepted
    (env env_now : string -> option string) (username password : string) :
  (check_login env env_now username password = Some (ADMIN_TOKEN env) <->
   username = "admin" /\ password = getenv env_now "ADMIN_PASSWORD" "admin123") /\
  (forall token, check_login env env_now username password = Some token ->
                 verify_token env (Some token) = inl true) /\
  verify_token env None = inr (Unauthorized "Missing authentication token") /\
  (forall token, token <> ADMIN_TOKEN env ->
                 verify_token env (Some token)
                 = inr (Forbidden "Invalid authentication token")).
Proof.
  unfold check_login, verify_token.
  destruct (String.eqb_spec username "admin") as [Hu|Hu];
    destruct (String.eqb_spec password (getenv env_now "ADMIN_PASSWORD" "admin123"))
      as [Hp|Hp]; cbn [andb]; (split; [|split; [|split]]);
    try reflexivity;
    try (split; [discriminate|intros [? ?]; congruence]);
    try (split; [now intros _|reflexivity]);
    try (intros token H; try discriminate; injection H as <-;
         now rewrite String.eqb_refl);
    try (intros token H; now destruct (String.eqb_spec token (ADMIN_TOKEN env))).
Qed.

End AuthFacts.

(** ** Sorting the DermNet files *)

Module PrepareFacts.
Import Py PrepareData.

Lemma prefix_iff (p : string) :
  forall s, String.prefix p s = true <-> exists post, s = p ++ post.
Proof.
  induction p as [|a p IH]; intros s.
  - split; [intros _; now exists s|intros _; now destruct s].
  - destruct s as [|b s]; simpl.
    + split; [discriminate|intros [post H]; discriminate].
    + destruct (Ascii.ascii_dec a b) as [->|Hne].
      * rewrite IH. split; intros [post H]; exists post; congruence.
      * split; [discriminate|intros [post H]; congruence].
Qed.

Lemma contains_iff (p : string) :
  forall s, contains p s = true <-> occurs_in p s.
Proof.
  unfold occurs_in.
  induction s as [|c s IH]; cbn [contains].
  - rewrite prefix_iff. split.
    + intros [post H]. now exists "", post.
    + intros (pre & post & H). destruct pre; [now exists post|discriminate].
  - rewrite orb_true_iff, prefix_iff, IH. split.
    + intros [[post H]|(pre & post & H)].
      * now exists "", post.
      * exists (String c pre), post. simpl. now rewrite H.
    + intros (pre & post & H). destruct pre as [|c' pre].
      * left. now exists post.
      * right. simpl in H. injection H as _ H. now exists pre, post.
Qed.

Lemma matches_iff (patterns : list string) (s : string) :
  matches patterns s = true <-> exists p, In p patterns /\ occurs_in p s.
Proof.
  unfold matches. rewrite existsb_exists.
  split; intros (p & Hin & H); exists p; (split; [exact Hin|]);
    now apply contains_iff.
Qed.

Lemma matches_none (patterns : list string) (s : string) :
  matches patterns s = false -> Forall (fun p => ~ occurs_in p s) patterns.
Proof.
  intros H. apply Forall_forall. intros p Hin Hocc.
  assert (matches patterns s = true) by (apply matches_iff; eauto).
  congruence.
Qed.

(** X23.  A file name is sorted into the first class, in the order of
    [CLASS_PATTERNS], one of whose patterns occurs in it: no pattern of an
    earlier class occurs there, though patterns of later classes may; a name
    in which no pattern occurs at all is sorted into no class. *)
Theorem classify_first_match
    (class_patterns : list (string * list string)) (filename_lower : string) :
  match classify class_patterns filename_lower with
  | Some disease_class =>
      exists before patterns after p,
        class_patterns = (before ++ (disease_class, patterns) :: after)%list /\
        In p patterns /\ occurs_in p filename_lower /\
        Forall (fun cp => Forall (fun q => ~ occurs_in q filename_lower) (snd cp)) before
  | None =>
      Forall (fun cp => Forall (fun q => ~ occurs_in q filename_lower) (snd cp))
             class_patterns
  end.
Proof.
  induction class_patterns as [|[cls pats] rest IH]; cbn [classify]; [constructor|].
  destruct (matches pats filename_lower) eqn:E.
  - apply matches_iff in E. destruct E as (p & Hin & Hocc).
    exists [], pats, rest, p. repeat split; try assumption. constructor.
  - apply matches_none in E.
    destruct (classify rest filename_lower) as [c|].
    + destruct IH as (before & patterns & after & p & -> & Hin & Hocc & Hbefore).
      exists ((cls, pats) :: before), patterns, after, p.
      repeat split; try assumption. now constructor.
    + now constructor.
Qed.

(** A name with patterns of two classes goes to the earlier class. *)
Example classify_earlier_class_wins :
  classify CLASS_PATTERNS "candida-ringworm-12.jpg" = Some "candidiasis" /\
  classify CLASS_PATTERNS "ringworm-candida-12.jpg" = Some "candidiasis" /\
  classify CLASS_PATTERNS "eczema-3.jpg" = None.
Proof. repeat split. Qed.

Section Finding.
Variable str_lower : string -> string.
Variable extract_dir : string.

Local Abbreviation sorted_into := (PrepareData.sorted_into str_lower).
Local Abbreviation grouped := (PrepareData.grouped str_lower).

Lemma sorted_into_snoc (cls : string) (cands : list (string * string))
    (path name : string) :
  sorted_into cls (cands ++ [(path, name)])
  = (sorted_into cls cands
       ++ if is_class cls (classify CLASS_PATTERNS (str_lower name))
          then [path] else [])%list.
Proof.
  unfold PrepareData.sorted_into. rewrite filter_app, map_app. cbn [filter snd].
  now destruct (is_class cls (classify CLASS_PATTERNS (str_lower name))).
Qed.

(** Appending to the list of one class is adding a candidate that is
    sorted into that class. *)
Lemma dict_append_grouped (cps : list (string * list string))
    (cands : list (string * string)) (cls path name : string) :
  NoDup (keys cps) ->
  classify CLASS_PATTERNS (str_lower name) = Some cls ->
  dict_append (grouped cps cands) cls path = grouped cps (cands ++ [(path, name)]).
Proof.
  intros Hnd Hcls. unfold PrepareData.grouped.
  induction cps as [|[c pats] cps IH]; [reflexivity|].
  simpl in Hnd. inversion Hnd as [|? ? Hnotin Hnd']; subst.
  cbn [map fst dict_append]. rewrite sorted_into_snoc, Hcls. cbn [is_class].
  rewrite (String.eqb_sym cls c).
  destruct (String.eqb_spec c cls) as [->|Hne].
  - f_equal. clear IH Hnd Hnd'.
    induction cps as [|[c' pats'] cps IH']; [reflexivity|].
    cbn [map fst]. rewrite sorted_into_snoc, Hcls. cbn [is_class].
    destruct (String.eqb_spec cls c') as [->|_].
    + exfalso. apply Hnotin. now left.
    + rewrite app_nil_r. f_equal. apply IH'. intros H. apply Hnotin. now right.
  - rewrite app_nil_r. f_equal. now apply IH.
Qed.

Lemma grouped_unsorted (cps : list (string * list string))
    (cands : list (string * string)) (path name : string) :
  classify CLASS_PATTERNS (str_lower name) = None ->
  grouped cps (cands ++ [(path, name)]) = grouped cps cands.
Proof.
  intros Hcls. unfold PrepareData.grouped. apply map_ext. intros [c pats].
  cbn [fst]. rewrite sorted_into_snoc, Hcls. cbn [is_class].
  now rewrite app_nil_r.
Qed.

Lemma class_patterns_distinct : NoDup (keys CLASS_PATTERNS).
Proof. repeat constructor; simpl; intuition discriminate. Qed.

Lemma fold_file_into (split : string) (entries : list (string * node)) :
  forall cands,
    fold_left (file_into str_lower extract_dir split) entries
      (grouped CLASS_PATTERNS cands)
    = grouped CLASS_PATTERNS
        (cands ++ map (fun e => (path_join (fungal_dir_path extract_dir split) (fst e),
                                  fst e))
                      (filter (fun e => is_file (snd e)) entries)).
Proof.
  induction entries as [|[name n] rest IH]; intros cands; cbn [fold_left].
  - cbn [filter map]. now rewrite app_nil_r.
  - unfold file_into at 2. cbn [fst snd filter].
    destruct (is_file n); cbn [negb map fst].
    + destruct (classify CLASS_PATTERNS (str_lower name)) as [cls|] eqn:E.
      * rewrite (dict_append_grouped _ _ _ _ name class_patterns_distinct E).
        rewrite IH. now rewrite <- app_assoc.
      * rewrite <- (grouped_unsorted CLASS_PATTERNS cands
                      (path_join (fungal_dir_path extract_dir split) name) name E).
        rewrite IH. now rewrite <- app_assoc.
    + apply IH.
Qed.

Lemma find_in_split_grouped (root : option node) (split : string)
    (cands : list (string * string)) :
  match find_in_split str_lower extract_dir root split (grouped CLASS_PATTERNS cands) with
  | Return found =>
      found = grouped CLASS_PATTERNS
                (cands ++ candidates_in extract_dir root split)
  | Raise e =>
      exists content,
        child (child root split) FUNGAL_FOLDER = Some (File content)
  end.
Proof.
  unfold find_in_split, candidates_in.
  destruct (child (child root split) FUNGAL_FOLDER) as [[content|entries]|].
  - now exists content.
  - apply fold_file_into.
  - now rewrite app_nil_r.
Qed.

(** The result, when there is one, is the grouping of the candidates of
    [train] followed by those of [test]. *)
Lemma find_fungal_images_found (root : option node) :
  match find_fungal_images str_lower extract_dir root with
  | Return found =>
      found = grouped CLASS_PATTERNS
                (candidates_in extract_dir root "train"
                   ++ candidates_in extract_dir root "test")
  | Raise e =>
      exists split content,
        child (child root split) FUNGAL_FOLDER = Some (File content)
  end.
Proof.
  unfold find_fungal_images.
  change (map (fun cp : string * list string => (fst cp, @nil string)) CLASS_PATTERNS)
    with (grouped CLASS_PATTERNS []).
  pose proof (find_in_split_grouped root "train" []) as H1.
  destruct (find_in_split str_lower extract_dir root "train" (grouped CLASS_PATTERNS []))
    as [found1|e1].
  - subst found1. cbn [app].
    pose proof (find_in_split_grouped root "test"
                  (candidates_in extract_dir root "train")) as H2.
    destruct (find_in_split str_lower extract_dir root "test"
                (grouped CLASS_PATTERNS (candidates_in extract_dir root "train")))
      as [found2|e2].
    + now subst found2.
    + destruct H2 as [content H2]. now exists "test", content.
  - destruct H1 as [content H1]. now exists "train", content.
Qed.

(** X24.  [find_fungal_images] returns the four classes in the order of
    [CLASS_PATTERNS], each with the regular files of the fungal folder of
    [train] and then of [test] whose lower-cased name is sorted into that
    class, in listing order; files sorted into no class are dropped, and a
    split without the folder contributes nothing.  It raises only when the
    fungal folder of a split is a regular file. *)
Theorem find_fungal_images_grouped (root : option node) :
  match find_fungal_images str_lower extract_dir root with
  | Return found =>
      found = grouped CLASS_PATTERNS
                (candidates_in extract_dir root "train"
                   ++ candidates_in extract_dir root "test") /\
      keys found
      = ["candidiasis"; "tinea_corporis"; "tinea_pedis"; "tinea_versicolor"]
  | Raise e =>
      exists split content,
        child (child root split) FUNGAL_FOLDER = Some (File content)
  end.
Proof.
  pose proof (find_fungal_images_found root) as H.
  destruct (find_fungal_images str_lower extract_dir root) as [found|e];
    [|exact H].
  subst found. split; reflexivity.
Qed.

(** X25.  No file is listed under two classes: when the candidate paths
    are pairwise distinct, a path found under one class is found under no
    other class, also when its name holds patterns of both. *)
Theorem find_fungal_images_disjoint
    (root : option node) (found : dict (list string))
    (c1 c2 path : string) (l1 l2 : list string) :
  find_fungal_images str_lower extract_dir root = Return found ->
  NoDup (map fst (candidates_in extract_dir root "train"
                    ++ candidates_in extract_dir root "test")) ->
  In (c1, l1) found -> In (c2, l2) found ->
  c1 <> c2 ->
  In path l1 -> ~ In path l2.
Proof.
  intros Hfound Hnd H1 H2 Hne Hp1 Hp2. apply Hne.
  pose proof (find_fungal_images_found root) as H. rewrite Hfound in H.
  subst found.
  set (cands := (candidates_in extract_dir root "train"
                   ++ candidates_in extract_dir root "test")%list) in *.
  unfold PrepareData.grouped in H1, H2.
  apply in_map_iff in H1. destruct H1 as ([c1' p1] & E1 & _).
  apply in_map_iff in H2. destruct H2 as ([c2' p2] & E2 & _).
  cbn [fst] in E1, E2. injection E1 as -> <-. injection E2 as -> <-.
  unfold PrepareData.sorted_into in Hp1, Hp2.
  apply in_map_iff in Hp1. destruct Hp1 as ([q1 n1] & Eq1 & Hf1).
  apply in_map_iff in Hp2. destruct Hp2 as ([q2 n2] & Eq2 & Hf2).
  cbn [fst] in Eq1, Eq2. subst q1 q2.
  apply filter_In in Hf1. destruct Hf1 as [Hin1 Hc1].
  apply filter_In in Hf2. destruct Hf2 as [Hin2 Hc2].
  cbn [snd] in Hc1, Hc2.
  assert (Hn : n1 = n2).
  { clear -Hnd Hin1 Hin2. induction cands as [|[q n] cands IH]; [destruct Hin1|].
    simpl in Hnd. inversion Hnd as [|? ? Hnotin Hnd']; subst.
    destruct Hin1 as [E1|Hin1]; destruct Hin2 as [E2|Hin2].
    - congruence.
    - injection E1 as -> ->. exfalso. apply Hnotin.
      change path with (fst (path, n2)). now apply in_map.
    - injection E2 as -> ->. exfalso. apply Hnotin.
      change path with (fst (path, n1)). now apply in_map.
    - now apply IH. }
  subst n2.
  destruct (classify CLASS_PATTERNS (str_lower n1)) as [c|]; [|discriminate].
  cbn [is_class] in Hc1, Hc2.
  apply String.eqb_eq in Hc1, Hc2. congruence.
Qed.

End Finding.

Lemma find_fungal_images_disjoint_witness :
  matches ["ringworm"] "candida-ringworm-1.jpg" = true /\
  find_fungal_images Py.lower "x" (Some MoreSamples.ambiguous_tree)
  = Return
      [ ("candidiasis",
         ["x/train/Tinea Ringworm Candidiasis and other Fungal Infections/candida-ringworm-1.jpg"]);
        ("tinea_corporis",
         ["x/train/Tinea Ringworm Candidiasis and other Fungal Infections/ringworm-body-12.jpg"]);
        ("tinea_pedis", []);
        ("tinea_versicolor", []) ] /\
  ~ In "x/train/Tinea Ringworm Candidiasis and other Fungal Infections/candida-ringworm-1.jpg"
       ["x/train/Tinea Ringworm Candidiasis and other Fungal Infections/ringworm-body-12.jpg"].
Proof.
  split; [reflexivity|]. split; [reflexivity|].
  apply (find_fungal_images_disjoint Py.lower "x" (Some MoreSamples.ambiguous_tree)
           [ ("candidiasis",
              ["x/train/Tinea Ringworm Candidiasis and other Fungal Infections/candida-ringworm-1.jpg"]);
             ("tinea_corporis",
              ["x/train/Tinea Ringworm Candidiasis and other Fungal Infections/ringworm-body-12.jpg"]);
             ("tinea_pedis", []);
             ("tinea_versicolor", []) ]
           "candidiasis" "tinea_corporis"
           "x/train/Tinea Ringworm Candidiasis and other Fungal Infections/candida-ringworm-1.jpg"
           ["x/train/Tinea Ringworm Candidiasis and other Fungal Infections/candida-ringworm-1.jpg"]
           ["x/train/Tinea Ringworm Candidiasis and other Fungal Infections/ringworm-body-12.jpg"]).
  - reflexivity.
  - vm_compute. repeat constructor; simpl; intuition discriminate.
  - now left.
  - right. now left.
  - discriminate.
  - now left.
Defined.

End PrepareFacts.

(** ** More on preprocessing and on which files count *)

Module InferenceMore.
Import Py Preprocess.

Section Inference.
Variable pil_image : Type.
Variable load_img : string -> nat * nat -> result pil_image.
Variable img_to_array : pil_image -> tensor.
Variable decode_image : string -> nat -> result tensor.
Variable resize : tensor -> nat * nat -> result tensor.
Hypothesis contract :
  backend_contract pil_image load_img img_to_array decode_image resize.

(** X26.  For every target size [(h, w)], [preprocess_image] fails exactly
    when loading fails, with the loader's error, and otherwise returns a
    tensor of shape (1, h, w, 3) whose values lie in [[-1, 1]]. *)
Theorem preprocess_image_any_size (image_path : string) (h w : nat) :
  match load_img image_path (h, w) with
  | Raise e =>
      preprocess_image pil_image load_img img_to_array image_path (h, w) = Raise e
  | Return _ =>
      exists t,
        preprocess_image pil_image load_img img_to_array image_path (h, w) = Return t /\
        shape t = [1; h; w; 3] /\ in_range (-1) 1 t
  end.
Proof.
  unfold preprocess_image.
  destruct (load_img image_path (h, w)) as [img|e] eqn:E; [|reflexivity].
  eexists. split; [reflexivity|]. split.
  - simpl. now rewrite (load_img_shape _ _ _ _ _ contract _ _ _ _ E).
  - apply InferenceFacts.expand_dims0_range, InferenceFacts.preprocess_input_range.
    exact (load_img_range _ _ _ _ _ contract _ _ _ E).
Qed.

(** X27.  On a buffer that decodes to a single still image the bytes
    route returns, for every target size with a positive height and width,
    a tensor of the shape the path route returns for that size, with values
    in [[-1, 1]].  It fails with the decoder's error when decoding fails,
    and after decoding it fails when the target has a zero height or
    width. *)
Theorem preprocess_image_bytes_any_size (image_bytes : string) (h w : nat) :
  match decode_image image_bytes 3 with
  | Raise e =>
      preprocess_image_bytes decode_image resize image_bytes (h, w) = Raise e
  | Return img =>
      (h = 0 \/ w = 0 ->
       exists e,
         preprocess_image_bytes decode_image resize image_bytes (h, w) = Raise e) /\
      (forall ih iw,
         shape img = [ih; iw; 3] -> 0 < h -> 0 < w ->
         exists t,
           preprocess_image_bytes decode_image resize image_bytes (h, w) = Return t /\
           shape t = [1; h; w; 3] /\ in_range (-1) 1 t)
  end.
Proof.
  destruct (decode_image image_bytes 3) as [img|e] eqn:E.
  - split.
    + intros Hz. unfold preprocess_image_bytes. rewrite E.
      destruct (resize_zero _ _ _ _ _ contract img h w Hz) as [e He].
      rewrite He. now exists e.
    + intros ih iw Hs Hh Hw.
      exact (InferenceFacts.preprocess_image_bytes_rank3 _ _ _ _ _ contract
               image_bytes img ih iw h w E Hs Hh Hw).
  - unfold preprocess_image_bytes. now rewrite E.
Qed.

End Inference.

Lemma preprocess_image_any_size_witness :
  exists t,
    preprocess_image tensor Samples.black_load_img Samples.black_img_to_array
      "photo.jpg" (96, 128) = Return t /\
    shape t = [1; 96; 128; 3] /\ in_range (-1) 1 t.
Proof.
  exact (preprocess_image_any_size _ _ _ _ _ InferenceFacts.black_backend_contract
           "photo.jpg" 96 128).
Defined.

Lemma preprocess_image_bytes_any_size_witness :
  exists t,
    preprocess_image_bytes Samples.black_decode_image Samples.black_resize
      "PNG data" (96, 128) = Return t /\
    shape t = [1; 96; 128; 3] /\ in_range (-1) 1 t.
Proof.
  pose proof (preprocess_image_bytes_any_size _ _ _ _ _
                InferenceFacts.black_backend_contract "PNG data" 96 128) as H.
  cbn [Samples.black_decode_image String.eqb Ascii.eqb Bool.eqb startswith
       String.prefix] in H.
  apply (proj2 H 2 2); [reflexivity|lia|lia].
Defined.

(** A zero target side is refused after decoding. *)
Example preprocess_image_bytes_zero_side :
  preprocess_image_bytes Samples.black_decode_image Samples.black_resize
    "PNG data" (0, 128)
  = Raise (RuntimeError "output dimensions must be positive").
Proof. reflexivity. Qed.

(** *** Which files the validator counts *)

Lemma rfind_dot_none (s : string) : Tree.dot_free s = true -> rfind_dot s = None.
Proof.
  induction s as [|c s IH]; simpl; [reflexivity|].
  intros H. apply andb_true_iff in H. destruct H as [Hc Hs].
  rewrite (IH Hs). apply negb_true_iff in Hc. now rewrite Hc.
Qed.

Lemma rfind_dot_ext (stem ext : string) :
  Tree.dot_free ext = true ->
  rfind_dot (stem ++ String "." ext) = Some (String.length stem).
Proof.
  intros Hext. induction stem as [|c stem IH]; simpl.
  - now rewrite (rfind_dot_none ext Hext).
  - now rewrite IH.
Qed.

Lemma drop_stem (stem rest : string) : drop (String.length stem) (stem ++ rest) = rest.
Proof.
  induction stem as [|c stem IH]; simpl; [now destruct rest|exact IH].
Qed.

Lemma length_append (a b : string) :
  String.length (a ++ b) = String.length a + String.length b.
Proof. induction a as [|c a IH]; simpl; [reflexivity|now rewrite IH]. Qed.

(** The suffix of a name with a non-empty stem and a non-empty dot-free
    extension is the dot and the extension. *)
Lemma suffix_stem_ext (stem ext : string) :
  stem <> "" -> ext <> "" -> Tree.dot_free ext = true ->
  suffix (stem ++ String "." ext) = String "." ext.
Proof.
  intros Hstem Hext Hfree. unfold suffix.
  rewrite (rfind_dot_ext stem ext Hfree), length_append.
  assert (0 < String.length stem) by (destruct stem; [congruence|simpl; lia]).
  assert (0 < String.length ext) by (destruct ext; [congruence|simpl; lia]).
  cbn [String.length].
  destruct (Nat.ltb_spec 0 (String.length stem)); [|lia].
  destruct (Nat.ltb_spec (String.length stem + 1)
              (String.length stem + S (String.length ext))); [|lia].
  cbn [andb]. apply drop_stem.
Qed.

(** X28.  Which entries of a class directory count as images.  A
    directory never counts.  A regular file counts when its name is a
    non-empty stem, a dot and a dot-free extension that is, in any mix of
    upper and lower case, one of jpg, jpeg, png, webp, bmp, gif; with any
    other such extension it does not count.  A name without a dot, and a
    name that is only a dot and an extension (such as [.jpg]), does not
    count. *)
Theorem counted_as_image (name stem ext content : string) (entries : list (string * node)) :
  Validate.is_image_entry (name, Dir entries) = false /\
  (Tree.dot_free name = true ->
   Validate.is_image_entry (name, File content) = false) /\
  (Tree.dot_free ext = true ->
   Validate.is_image_entry (String "." ext, File content) = false) /\
  (stem <> "" -> ext <> "" -> Tree.dot_free ext = true ->
   Validate.is_image_entry (stem ++ String "." ext, File content)
   = str_in (lower ext) ["jpg"; "jpeg"; "png"; "webp"; "bmp"; "gif"]).
Proof.
  unfold Validate.is_image_entry. cbn [fst snd is_file andb].
  split; [reflexivity|]. split; [|split].
  - intros H. unfold suffix. now rewrite (rfind_dot_none name H).
  - intros H. unfold suffix. cbn [rfind_dot].
    now rewrite (rfind_dot_none ext H).
  - intros Hstem Hext Hfree. rewrite (suffix_stem_ext stem ext Hstem Hext Hfree).
    unfold Validate.valid_extensions, str_in. cbn [lower existsb].
    change (lower_ascii ".") with "."%char.
    cbn [String.eqb]. rewrite Ascii.eqb_refl. reflexivity.
Qed.

(** A camera file name in upper case counts, a sidecar file does not. *)
Example counted_as_image_examples :
  Validate.is_image_entry ("IMG_0012.JPG", File "x") = true /\
  Validate.is_image_entry ("scan.v2.Png", File "x") = true /\
  Validate.is_image_entry ("labels.csv", File "x") = false /\
  Validate.is_image_entry ("photo.jpg.bak", File "x") = false /\
  Validate.is_image_entry (".gif", File "x") = false.
Proof. repeat split. Qed.

End InferenceMore.
